(** * TableFactory: row/column/cell model and the HTML renderer

    A shallow embedding of [TableFactory/layout.py], [TableFactory/base.py]
    and [TableFactory/htmltable.py] (with the cell renderer of
    [TableFactory/pdftable.py]), and the properties of the row factory, the
    style bag and the markup output proved about it.

    The code is Python 2.  Python values are a small universe [pyval];
    raising is a result in the [result] monad, with one constructor of
    [exn] per exception class the code can meet. *)

From Stdlib Require Import List String Ascii ZArith QArith Bool Lia.
From Stdlib Require Import DecimalString.
Import ListNotations.

Local Close Scope Q_scope.
Local Open Scope string_scope.
Local Open Scope list_scope.

(** ** Exceptions and the error monad *)

Inductive exn : Type :=
| KeyError
| TypeError
| AttributeError
| OverflowError.

Inductive result (A : Type) : Type :=
| Ok (a : A)
| Err (e : exn).

Arguments Ok {A} a.
Arguments Err {A} e.

Definition bind {A B : Type} (r : result A) (k : A -> result B) : result B :=
  match r with
  | Ok a => k a
  | Err e => Err e
  end.

Notation "x <- r ;; k" := (bind r (fun x => k))
  (at level 61, r at next level, right associativity).

(** ** Python values *)

(** The values a record, a cell or a style option can hold.  [PStr] is a
    text string.  A float is represented by the rational it denotes:
    rounding is not modelled.
    [PDict] is a [dict] with string keys, looked up first match.  [PObj] is
    an instance of a user class: [items] is [Some] when the class is
    subscriptable by key (a mapping-like object such as a database row) and
    [attrs] is its attribute table. *)
#[local] Unset Elimination Schemes.
Inductive pyval : Type :=
| PNone
| PBool (b : bool)
| PInt (z : Z)
| PFloat (q : Q)
| PStr (s : string)
| PTuple (elts : list pyval)
| PDict (items : list (string * pyval))
| PObj (items : option (list (string * pyval))) (attrs : list (string * pyval)).
#[local] Set Elimination Schemes.

(** [d.get(key, default)] on a dict with string keys. *)
Fixpoint dict_get {V : Type} (d : list (string * V)) (key : string) (default : V) : V :=
  match d with
  | [] => default
  | (k, v) :: rest => if String.eqb k key then v else dict_get rest key default
  end.

(** [key in d] and [d[key]] together: [None] is the [KeyError] case. *)
Fixpoint dict_find {V : Type} (d : list (string * V)) (key : string) : option V :=
  match d with
  | [] => None
  | (k, v) :: rest => if String.eqb k key then Some v else dict_find rest key
  end.

(** [value[attribute]] for a string [attribute].  A dict or a mapping-like
    object raises [KeyError] on a missing key; everything else raises
    [TypeError]: numbers and [None] are not subscriptable, strings and
    tuples take integer indices only. *)
Definition getitem (value : pyval) (attribute : string) : result pyval :=
  match value with
  | PDict items | PObj (Some items) _ =>
      match dict_find items attribute with
      | Some v => Ok v
      | None => Err KeyError
      end
  | _ => Err TypeError
  end.

(** [getattr(value, attribute)].  Only instances carry attributes here; the
    methods of the built-in types are outside the model. *)
Definition getattr (value : pyval) (attribute : string) : result pyval :=
  match value with
  | PObj _ attrs =>
      match dict_find attrs attribute with
      | Some v => Ok v
      | None => Err AttributeError
      end
  | _ => Err AttributeError
  end.

(** Truth value of an object in a condition. *)
Definition truthy (v : pyval) : bool :=
  match v with
  | PNone => false
  | PBool b => b
  | PInt z => negb (z =? 0)%Z
  | PFloat q => negb (Qeq_bool q 0)
  | PStr s => negb (String.eqb s "")
  | PTuple elts => match elts with [] => false | _ => true end
  | PDict items => match items with [] => false | _ => true end
  | PObj _ _ => true
  end.

Definition is_None (v : pyval) : bool :=
  match v with
  | PNone => true
  | _ => false
  end.

(** [value > n] for an integer [n], with the ordering of Python 2: [None]
    is below every number and every other object is above every number. *)
Definition gt_int (v : pyval) (n : Z) : bool :=
  match v with
  | PNone => false
  | PBool b => (n <? (if b then 1 else 0))%Z
  | PInt z => (n <? z)%Z
  | PFloat q => negb (Qle_bool q (inject_Z n))
  | _ => true
  end.

(** The conversion of an integer to a float, which an integer operand of a
    float operation goes through: an integer that rounds to [2 ^ 1024] or
    beyond raises [OverflowError]. *)
Definition float_of_int (z : Z) : result Q :=
  if (Z.abs z <? 2 ^ 1024 - 2 ^ 970)%Z then Ok (inject_Z z) else Err OverflowError.

(** [value * f] for a float [f]: a number times a float is a float; any
    other operand raises [TypeError]. *)
Definition mul_float (value : pyval) (f : Q) : result pyval :=
  match value with
  | PBool b => Ok (PFloat ((if b then 1 else 0) * f))
  | PInt z => x <- float_of_int z ;; Ok (PFloat (x * f))
  | PFloat q => Ok (PFloat (q * f))
  | _ => Err TypeError
  end.

(** ** Text *)

Definition dq : string := String "034"%char "".
Definition newline : string := String "010"%char "".
Definition CR : ascii := "013"%char.

Definition string_of_Z (z : Z) : string := NilZero.string_of_int (Z.to_int z).

(** [s.replace(old, new)] for a one-character [old]. *)
Fixpoint replace_char (old : ascii) (new : string) (s : string) : string :=
  match s with
  | EmptyString => EmptyString
  | String c rest =>
      if Ascii.eqb c old then (new ++ replace_char old new rest)%string
      else String c (replace_char old new rest)
  end.

(** [value.replace(old, new)] as a method call.  A string has the method;
    an instance has it only as an attribute named [replace], and no value
    held in an attribute table is callable, so calling it raises
    [TypeError]; every other value raises [AttributeError]. *)
Definition method_replace (v : pyval) (old : ascii) (new : string) : result string :=
  match v with
  | PStr s => Ok (replace_char old new s)
  | PObj _ attrs =>
      match dict_find attrs "replace" with
      | Some _ => Err TypeError
      | None => Err AttributeError
      end
  | _ => Err AttributeError
  end.

(** [cgi.escape(s)] of the standard library, without [quote]: three
    replacements, the ampersand first. *)
Definition cgi_escape (s : string) : string :=
  replace_char ">" "&gt;" (replace_char "<" "&lt;" (replace_char "&" "&amp;" s)).

(** ['%d' % v]: a number printed as an integer, floats truncated. *)
Definition format_d (v : pyval) : result string :=
  match v with
  | PBool b => Ok (if b then "1" else "0")
  | PInt z => Ok (string_of_Z z)
  | PFloat q => Ok (string_of_Z (Z.quot (Qnum q) (Zpos (Qden q))))
  | _ => Err TypeError
  end.

Inductive pytype : Type :=
| NoneType | bool_type | int_type | float_type | str_type
| tuple_type | dict_type | instance_type.

Definition type_of (v : pyval) : pytype :=
  match v with
  | PNone => NoneType
  | PBool _ => bool_type
  | PInt _ => int_type
  | PFloat _ => float_type
  | PStr _ => str_type
  | PTuple _ => tuple_type
  | PDict _ => dict_type
  | PObj _ _ => instance_type
  end.

Definition pytype_eqb (a b : pytype) : bool :=
  match a, b with
  | NoneType, NoneType | bool_type, bool_type | int_type, int_type
  | float_type, float_type | str_type, str_type | tuple_type, tuple_type
  | dict_type, dict_type | instance_type, instance_type => true
  | _, _ => false
  end.

Section Text.
(** The text Python gives a float, a container or an instance; it is not
    computed here. *)
Variable repr : pyval -> string.

(** [unicode(v)], which is also what ['%s'] prints. *)
Definition unicode (v : pyval) : string :=
  match v with
  | PNone => "None"
  | PBool b => if b then "True" else "False"
  | PInt z => string_of_Z z
  | PStr s => s
  | _ => repr v
  end.

(** [fmt % v] for a format with a single ['%s']: a tuple on the right
    is taken as the argument list. *)
Definition format_s (v : pyval) : result string :=
  match v with
  | PTuple [x] => Ok (unicode x)
  | PTuple _ => Err TypeError
  | _ => Ok (unicode v)
  end.
End Text.

(** ** layout.py *)

Module layout.

(** [reportlab.lib.units.inch]. *)
Definition inch : Q := 72.

Record StyleAttributes : Type := mkStyleAttributes {
  properties : list (string * pyval)
}.

(** [StyleAttributes.__getattr__(key)], which Python calls for every name
    that is not found on the instance or its class. *)
Definition StyleAttributes_getattr (self : StyleAttributes) (key : string)
    : result pyval :=
  let value := dict_get (properties self) key PNone in
  if String.eqb key "width" && negb (is_None value) then mul_float value inch
  else if String.eqb key "span" && is_None value then Ok (PInt 1)
  else Ok value.

Record Cell : Type := mkCell {
  value : pyval;
  style : StyleAttributes
}.

(** [Cell.__init__]: a missing style is an empty [StyleAttributes]. *)
Definition Cell_init (value : pyval) (style : option StyleAttributes) : Cell :=
  match style with
  | None => mkCell value (mkStyleAttributes [])
  | Some style => mkCell value style
  end.

Record TableRow : Type := mkTableRow {
  cells : list Cell
}.

(** The [attribute] argument of [ColumnSpec]: one name, or a tuple of
    names. *)
Inductive attribute_arg : Type :=
| Name (name : string)
| Names (names : list string).

Definition attribute_value (attribute : attribute_arg) : pyval :=
  match attribute with
  | Name name => PStr name
  | Names names => PTuple (map PStr names)
  end.

(** [column_style] is the [style] attribute of a [ColumnSpec]. *)
Record ColumnSpec : Type := mkColumnSpec {
  attributes : list string;
  title : pyval;
  column_style : StyleAttributes
}.

(** [ColumnSpec.__init__(attribute, title=None, **properties)]. *)
Definition ColumnSpec_init (attribute : attribute_arg) (title : pyval)
    (properties : list (string * pyval)) : ColumnSpec :=
  {| attributes := match attribute with
                   | Names names => names
                   | Name name => [name]
                   end;
     title := if truthy title then title else attribute_value attribute;
     column_style := mkStyleAttributes properties |}.

Record RowSpec : Type := mkRowSpec {
  columnspecs : list ColumnSpec
}.

(** The body of the inner loop of [RowSpec.__call__]: key lookup, and
    attribute lookup when that raised [KeyError] or [TypeError]. *)
Definition lookup (value : pyval) (attribute : string) : result pyval :=
  match getitem value attribute with
  | Ok v => Ok v
  | Err KeyError | Err TypeError => getattr value attribute
  | Err e => Err e
  end.

(** The inner loop, [for attribute in column.attributes]. *)
Fixpoint resolve (value : pyval) (attributes : list string) : result pyval :=
  match attributes with
  | [] => Ok value
  | attribute :: rest =>
      v <- lookup value attribute ;;
      resolve v rest
  end.

(** The outer loop, [output] being the list built so far. *)
Fixpoint call_loop (columns : list ColumnSpec) (rowobject : pyval)
    (output : list Cell) : result (list Cell) :=
  match columns with
  | [] => Ok output
  | column :: rest =>
      v <- resolve rowobject (attributes column) ;;
      call_loop rest rowobject (output ++ [Cell_init v (Some (column_style column))])
  end.

(** [RowSpec.__call__]. *)
Definition RowSpec_call (self : RowSpec) (rowobject : pyval) : result TableRow :=
  output <- call_loop (columnspecs self) rowobject [] ;;
  Ok (mkTableRow output).

(** [RowSpec.makeall]: the comprehension stops at the first record that
    raises. *)
Fixpoint makeall (self : RowSpec) (rowobjects : list pyval)
    : result (list TableRow) :=
  match rowobjects with
  | [] => Ok []
  | rowobject :: rest =>
      row <- RowSpec_call self rowobject ;;
      rows <- makeall self rest ;;
      Ok (row :: rows)
  end.

(** A rowset: one [TableRow], or a collection of them. *)
Inductive rowset : Type :=
| Single (row : TableRow)
| Group (rows : list TableRow).

(** [if isinstance(rowset, TableRow): rowset = [rowset]]. *)
Definition subrows (rs : rowset) : list TableRow :=
  match rs with
  | Single row => [row]
  | Group rows => rows
  end.

End layout.

(** ** base.py *)

Module base.
Import layout.

(** The [headers] argument: nothing, one [RowSpec], or a collection. *)
Inductive headers_arg : Type :=
| NoHeaders
| OneRowSpec (spec : RowSpec)
| RowSpecs (specs : list RowSpec).

(** [castfunctions] is the class attribute, a dict from types to
    formatters; the class sets it to the empty dict. *)
Record TableBase : Type := mkTableBase {
  title : option string;
  explanation : option string;
  headers : option (list RowSpec);
  castfunctions : list (pytype * (pyval -> string))
}.

(** [TableBase.__init__]. *)
Definition TableBase_init (title explanation : option string)
    (headers : headers_arg) : TableBase :=
  {| title := title;
     explanation := explanation;
     headers := match headers with
                | OneRowSpec spec => Some [spec]
                | RowSpecs specs => Some specs
                | NoHeaders => None
                end;
     castfunctions := [] |}.

(** [castfunctions.get(t, default)]. *)
Fixpoint castfunctions_get (d : list (pytype * (pyval -> string))) (t : pytype)
    (default : pyval -> string) : pyval -> string :=
  match d with
  | [] => default
  | (k, f) :: rest => if pytype_eqb k t then f else castfunctions_get rest t default
  end.

Section Cast.
Variable repr : pyval -> string.

(** [TableBase._cast]. *)
Definition _cast (self : TableBase) (cell : Cell) : result pyval :=
  let value := value cell in
  raw <- StyleAttributes_getattr (style cell) "raw" ;;
  if truthy raw then Ok value
  else if is_None value then Ok (PStr "")
  else
    let castfunction :=
      castfunctions_get (castfunctions self) (type_of value) (unicode repr) in
    Ok (PStr (cgi_escape (castfunction value))).
End Cast.

End base.

(** ** htmltable.py *)

Module htmltable.
Import layout base.

(** The CSS classes of [cssdefs]. *)
Definition cssdefs_bold : string := "cell_bold".
Definition cssdefs_money : string := "cell_money".
Definition cssdefs_table : string := "reporttable".
Definition cssdefs_childrow : string := "expand-child".
Definition cssdefs_zebra : list string := ["odd"; "even"].

(** [if s:] for an optional string: [Some] when [s] is a non-empty
    string. *)
Definition given (s : option string) : option string :=
  match s with
  | Some t => if String.eqb t "" then None else Some t
  | None => None
  end.

(** The opening tag of a body row, for the list [trclasses]. *)
Definition tr_line (trclasses : list string) : string :=
  ("    <tr class=" ++ dq ++ String.concat " " trclasses ++ dq ++ ">")%string.

(** The classes of the row at [subrowindex] of the rowset at
    [rowsetindex]. *)
Definition trclasses (rowsetindex subrowindex : nat) : list string :=
  let trclasses := [nth (rowsetindex mod 2) cssdefs_zebra ""] in
  if negb (subrowindex =? 0)%nat then trclasses ++ [cssdefs_childrow]
  else trclasses.

(** The local [cssstring] of [_rendercell]: the [class] attribute of a
    cell with the given style. *)
Definition cssstring (style : StyleAttributes) : result string :=
  let cssclasses := [] in
  bold <- StyleAttributes_getattr style "bold" ;;
  let cssclasses :=
    if truthy bold then cssclasses ++ [cssdefs_bold] else cssclasses in
  money <- StyleAttributes_getattr style "money" ;;
  let cssclasses :=
    if truthy money then cssclasses ++ [cssdefs_money] else cssclasses in
  match cssclasses with
  | [] => Ok ""
  | _ => Ok (" class=" ++ dq ++ String.concat " " cssclasses ++ dq)%string
  end.

(** The local [colspanstring] of [_rendercell]. *)
Definition colspanstring (style : StyleAttributes) : result string :=
  colspan <- StyleAttributes_getattr style "span" ;;
  if gt_int colspan 1
  then (d <- format_d colspan ;; Ok (" colspan=" ++ dq ++ d ++ dq)%string)
  else Ok "".

Section Render.
Variable repr : pyval -> string.

(** [HTMLTable._rendercell]. *)
Definition _rendercell (self : TableBase) (cell : Cell) : result string :=
  cssstring <- cssstring (style cell) ;;
  colspanstring <- colspanstring (style cell) ;;
  text <- _cast repr self cell ;;
  text <- method_replace text CR "<br />" ;;
  Ok ("<td" ++ cssstring ++ colspanstring ++ ">" ++ text ++ "</td>")%string.

(** One [th] line per header column. *)
Fixpoint render_headercolumns (headerrow : list ColumnSpec)
    (lines : list string) : result (list string) :=
  match headerrow with
  | [] => Ok lines
  | headercolumn :: rest =>
      span <- StyleAttributes_getattr (column_style headercolumn) "span" ;;
      line <-
        (if gt_int span 1
         then (d <- format_d span ;;
               Ok ("      <th colspan=" ++ dq ++ d ++ dq ++ ">"
                   ++ unicode repr (layout.title headercolumn)
                   ++ "</th>")%string)
         else (t <- format_s repr (layout.title headercolumn) ;;
               Ok ("      <th>" ++ t ++ "</th>")%string)) ;;
      render_headercolumns rest (lines ++ [line])
  end.

(** [for headerrow in self.headers]. *)
Fixpoint render_headers (headers : list RowSpec) (lines : list string)
    : result (list string) :=
  match headers with
  | [] => Ok lines
  | headerrow :: rest =>
      let lines := lines ++ ["    <tr>"] in
      lines <- render_headercolumns (columnspecs headerrow) lines ;;
      let lines := lines ++ ["    </tr>"] in
      render_headers rest lines
  end.

(** [for cell in subrow]. *)
Fixpoint render_cells (self : TableBase) (subrow : list Cell)
    (lines : list string) : result (list string) :=
  match subrow with
  | [] => Ok lines
  | cell :: rest =>
      td <- _rendercell self cell ;;
      render_cells self rest (lines ++ [("      " ++ td)%string])
  end.

(** [for subrowindex, subrow in enumerate(rowset)]. *)
Fixpoint render_subrows (self : TableBase) (rowsetindex subrowindex : nat)
    (rowset : list TableRow) (lines : list string) : result (list string) :=
  match rowset with
  | [] => Ok lines
  | subrow :: rest =>
      let lines := lines ++ [tr_line (trclasses rowsetindex subrowindex)] in
      lines <- render_cells self (cells subrow) lines ;;
      let lines := lines ++ ["    </tr>"] in
      render_subrows self rowsetindex (S subrowindex) rest lines
  end.

(** [for rowsetindex, rowset in enumerate(rowsets)]. *)
Fixpoint render_rowsets (self : TableBase) (rowsetindex : nat)
    (rowsets : list rowset) (lines : list string) : result (list string) :=
  match rowsets with
  | [] => Ok lines
  | rowset :: rest =>
      lines <- render_subrows self rowsetindex 0 (subrows rowset) lines ;;
      render_rowsets self (S rowsetindex) rest lines
  end.

(** The list [lines] of [HTMLTable.render], before it is joined. *)
Definition render_lines (self : TableBase) (rowsets : list rowset)
    : result (list string) :=
  let lines := [] in
  let lines :=
    match given (base.title self) with
    | Some title => lines ++ [("<h2>" ++ title ++ "</h2>")%string]
    | None => lines
    end in
  let lines :=
    match given (explanation self) with
    | Some explanation => lines ++ [("<p>" ++ explanation ++ "</p>")%string]
    | None => lines
    end in
  let lines :=
    match given (base.title self) with
    | Some title =>
        lines ++ [("<table summary=" ++ dq ++ title ++ dq
                   ++ " class=" ++ dq ++ cssdefs_table ++ dq ++ ">")%string]
    | None =>
        lines ++ [("<table class=" ++ dq ++ cssdefs_table ++ dq ++ ">")%string]
    end in
  lines <-
    (match headers self with
     | Some ((_ :: _) as headers) =>
         let lines := lines ++ ["  <thead>"] in
         lines <- render_headers headers lines ;;
         Ok (lines ++ ["  </thead>"])
     | _ => Ok lines
     end) ;;
  let lines := lines ++ ["  <tbody>"] in
  lines <- render_rowsets self 0 rowsets lines ;;
  let lines := lines ++ ["  </tbody>"] in
  let lines := lines ++ ["</table>"] in
  Ok lines.

(** [HTMLTable.render]. *)
Definition render (self : TableBase) (rowsets : list rowset) : result string :=
  lines <- render_lines self rowsets ;;
  Ok (String.concat newline lines).
End Render.

End htmltable.

(** ** pdftable.py *)

Module pdftable.
Import layout base.

Inductive ParagraphStyle : Type :=
| contentcellstyle
| contentmoneycellstyle.

(** [reportlab.platypus.Paragraph(text, style)], kept as data. *)
Record Paragraph : Type := mkParagraph {
  text : pyval;
  pstyle : ParagraphStyle
}.

Section Render.
Variable repr : pyval -> string.

(** [PDFTable._rendercell]. *)
Definition _rendercell (self : TableBase) (cell : Cell) : result Paragraph :=
  value <- _cast repr self cell ;;
  bold <- StyleAttributes_getattr (style cell) "bold" ;;
  value <-
    (if truthy bold
     then (s <- format_s repr value ;; Ok (PStr ("<b>" ++ s ++ "</b>")%string))
     else Ok value) ;;
  money <- StyleAttributes_getattr (style cell) "money" ;;
  let style := if truthy money then contentmoneycellstyle else contentcellstyle in
  Ok (mkParagraph value style).
End Render.

End pdftable.


(** ** Vocabulary of the statements, and sample data *)

Import layout base.


(** A record with a nested dict, and a RowSpec of a plain column and a
    two-segment column. *)
Definition record_xy : pyval :=
  PDict [("a", PInt 1); ("x", PDict [("y", PInt 5)])].

Definition spec_a_xy : RowSpec :=
  mkRowSpec [ColumnSpec_init (Name "a") PNone [("bold", PBool true)];
             ColumnSpec_init (Names ["x"; "y"]) (PStr "Y") []].




(** The option stored under [key], [None] when there is none. *)
Definition stored (self : StyleAttributes) (key : string) : pyval :=
  dict_get (properties self) key PNone.

(** The character [c] occurs in [s]. *)
Fixpoint occurs (c : ascii) (s : string) : bool :=
  match s with
  | EmptyString => false
  | String a rest => Ascii.eqb a c || occurs c rest
  end.

(** [HTMLTable()]: a table without title, explanation and headers. *)
Definition plain_table : TableBase := TableBase_init None None NoHeaders.

Definition raw_style : StyleAttributes := mkStyleAttributes [("raw", PBool true)].
Definition no_style : StyleAttributes := mkStyleAttributes [].

(** No text for floats, containers and instances is needed in the sample
    renderings. *)
Definition no_repr (v : pyval) : string := "".

(** A cell with no value whose [raw] option is set, and the same in bold. *)
Definition raw_None : Cell := mkCell PNone raw_style.

Definition raw_bold_None : Cell :=
  mkCell PNone (mkStyleAttributes [("raw", PBool true); ("bold", PBool true)]).

(** [s] starts with [p]. *)
Fixpoint starts_with (p s : string) : bool :=
  match p with
  | EmptyString => true
  | String a p' =>
      match s with
      | EmptyString => false
      | String b s' => Ascii.eqb a b && starts_with p' s'
      end
  end.

(** The lines of a rendering that open a body row. *)
Definition is_tr_line (line : string) : bool :=
  starts_with ("    <tr class=" ++ dq)%string line.

(** The stripe class that goes with the parity of a rowset index. *)
Definition stripe (rowsetindex : nat) : string :=
  if Nat.even rowsetindex then "odd" else "even".

(** The opening tags of the body rows of [rowsets], the first of which has
    index [rowsetindex]: one per row of each rowset, rowset after rowset. *)
Fixpoint tr_lines (rowsetindex : nat) (rowsets : list rowset) : list string :=
  match rowsets with
  | [] => []
  | rowset :: rest =>
      map (fun subrowindex =>
             htmltable.tr_line (htmltable.trclasses rowsetindex subrowindex))
          (seq 0 (List.length (subrows rowset)))
      ++ tr_lines (S rowsetindex) rest
  end.

(** The number of rows in the rowsets before index [i]. *)
Definition rows_before (i : nat) (rowsets : list rowset) : nat :=
  list_sum (map (fun rowset => List.length (subrows rowset)) (firstn i rowsets)).

(** Two rowsets of two rows each. *)
Definition row_1 : TableRow :=
  mkTableRow [mkCell (PInt 1) no_style; mkCell (PStr "x") no_style].

Definition two_by_two : list rowset :=
  [Group [row_1; row_1]; Group [row_1; row_1]].

(** A rowset of one row followed by a rowset of three. *)
Definition one_and_three : list rowset :=
  [Single row_1; Group [row_1; row_1; row_1]].

(** The lines of the two sample renderings. *)
Definition two_by_two_lines : list string :=
  Eval vm_compute in
    match htmltable.render_lines no_repr plain_table two_by_two with
    | Ok lines => lines
    | Err _ => []
    end.

Definition one_and_three_lines : list string :=
  Eval vm_compute in
    match htmltable.render_lines no_repr plain_table one_and_three with
    | Ok lines => lines
    | Err _ => []
    end.

(** A raw cell and a plain cell whose text has a carriage return. *)
Definition raw_two_lines : Cell :=
  mkCell (PStr ("<i>a</i>" ++ String CR "b")) raw_style.

Definition plain_two_lines : Cell :=
  mkCell (PStr ("a&b" ++ String CR "c")) (mkStyleAttributes [("span", PInt 2)]).

(** The cell renders in markup. *)
Definition renders (repr : pyval -> string) (self : TableBase) (cell : Cell) : Prop :=
  exists td, htmltable._rendercell repr self cell = Ok td.

(** The text a cell's value is formatted to, before escaping. *)
Definition display (repr : pyval -> string) (self : TableBase) (v : pyval) : string :=
  castfunctions_get (castfunctions self) (type_of v) (unicode repr) v.


(** ** More of layout.py *)

Section Repr.
Variable repr : pyval -> string.

(** [Cell.__repr__]. *)
Definition Cell_repr (self : Cell) : result string :=
  s <- format_s repr (value self) ;;
  Ok ("<Cell(" ++ s ++ ")>")%string.

(** [ColumnSpec.__repr__]. *)
Definition ColumnSpec_repr (self : ColumnSpec) : result string :=
  s <- format_s repr (layout.title self) ;;
  Ok ("<ColumnSpec(" ++ s ++ ")>")%string.
End Repr.

(** ** TableFactory.py, the single-module distribution

    Its [StyleAttributes], [Cell] and [TableRow] are those of layout.py;
    its [ColumnSpec] takes one name, its [_cast] knows no [raw] option and
    its markup has other row classes. *)

Module TableFactory_py.
Import layout.

Record ColumnSpec : Type := mkColumnSpec {
  attribute : string;
  title : pyval;
  style : StyleAttributes
}.

(** [ColumnSpec.__init__(attribute, title=None, **properties)]. *)
Definition ColumnSpec_init (attribute : string) (title : pyval)
    (properties : list (string * pyval)) : ColumnSpec :=
  {| attribute := attribute;
     title := if truthy title then title else PStr attribute;
     style := mkStyleAttributes properties |}.

Record RowSpec : Type := mkRowSpec {
  columnspecs : list ColumnSpec
}.

(** The loop of [RowSpec.__call__], [output] being the list built so
    far. *)
Fixpoint call_loop (columns : list ColumnSpec) (rowobject : pyval)
    (output : list Cell) : result (list Cell) :=
  match columns with
  | [] => Ok output
  | column :: rest =>
      value <-
        (match getitem rowobject (attribute column) with
         | Ok v => Ok v
         | Err KeyError | Err TypeError => getattr rowobject (attribute column)
         | Err e => Err e
         end) ;;
      call_loop rest rowobject (output ++ [Cell_init value (Some (style column))])
  end.

(** [RowSpec.__call__]. *)
Definition RowSpec_call (self : RowSpec) (rowobject : pyval) : result TableRow :=
  output <- call_loop (columnspecs self) rowobject [] ;;
  Ok (mkTableRow output).

Record TableBase : Type := mkTableBase {
  table_title : option string;
  explanation : option string;
  headers : option (list RowSpec)
}.

Section Render.
Variable repr : pyval -> string.

(** [TableBase._cast].  [str(value)] gives a value the text [unicode]
    gives it; the encoding of the text is not modelled. *)
Definition _cast (self : TableBase) (cell : Cell) : string :=
  if is_None (value cell) then ""
  else cgi_escape (unicode repr (value cell)).

(** [HTMLTable._rendercell]; the locals [cssstring] and [colspanstring]
    are computed as in htmltable.py. *)
Definition _rendercell (self : TableBase) (cell : Cell) : result string :=
  cssstring <- htmltable.cssstring (layout.style cell) ;;
  colspanstring <- htmltable.colspanstring (layout.style cell) ;;
  let text := replace_char CR "<br />" (_cast self cell) in
  Ok ("<td" ++ cssstring ++ colspanstring ++ ">" ++ text ++ "</td>")%string.

(** One [th] line per header column. *)
Fixpoint render_headercolumns (headerrow : list ColumnSpec)
    (lines : list string) : result (list string) :=
  match headerrow with
  | [] => Ok lines
  | headercolumn :: rest =>
      span <- StyleAttributes_getattr (style headercolumn) "span" ;;
      line <-
        (if gt_int span 1
         then (d <- format_d span ;;
               Ok ("      <th colspan=" ++ dq ++ d ++ dq ++ ">"
                   ++ unicode repr (title headercolumn) ++ "</th>")%string)
         else (t <- format_s repr (title headercolumn) ;;
               Ok ("      <th>" ++ t ++ "</th>")%string)) ;;
      render_headercolumns rest (lines ++ [line])
  end.

(** [for headerrow in self.headers]. *)
Fixpoint render_headers (headers : list RowSpec) (lines : list string)
    : result (list string) :=
  match headers with
  | [] => Ok lines
  | headerrow :: rest =>
      let lines := lines ++ ["    <tr>"] in
      lines <- render_headercolumns (columnspecs headerrow) lines ;;
      let lines := lines ++ ["    </tr>"] in
      render_headers rest lines
  end.

(** [for cell in subrow]. *)
Fixpoint render_cells (self : TableBase) (subrow : list Cell)
    (lines : list string) : result (list string) :=
  match subrow with
  | [] => Ok lines
  | cell :: rest =>
      td <- _rendercell self cell ;;
      render_cells self rest (lines ++ [("      " ++ td)%string])
  end.

(** [for subrow in rowset]. *)
Fixpoint render_subrows (self : TableBase) (rowsetindex : nat)
    (rowset : list TableRow) (lines : list string) : result (list string) :=
  match rowset with
  | [] => Ok lines
  | subrow :: rest =>
      let lines :=
        lines ++ [("    <tr class=" ++ dq ++ "tr_"
                   ++ nth (rowsetindex mod 2) ["odd"; "even"] "" ++ dq ++ ">")%string] in
      lines <- render_cells self (cells subrow) lines ;;
      let lines := lines ++ ["    </tr>"] in
      render_subrows self rowsetindex rest lines
  end.

(** [for rowsetindex, rowset in enumerate(rowsets)]. *)
Fixpoint render_rowsets (self : TableBase) (rowsetindex : nat)
    (rowsets : list rowset) (lines : list string) : result (list string) :=
  match rowsets with
  | [] => Ok lines
  | rowset :: rest =>
      lines <- render_subrows self rowsetindex (subrows rowset) lines ;;
      render_rowsets self (S rowsetindex) rest lines
  end.

(** The list [lines] of [HTMLTable.render], before it is joined. *)
Definition render_lines (self : TableBase) (rowsets : list rowset)
    : result (list string) :=
  let lines := [] in
  let lines :=
    match htmltable.given (table_title self) with
    | Some title => lines ++ [("<h2>" ++ title ++ "</h2>")%string]
    | None => lines
    end in
  let lines :=
    match htmltable.given (explanation self) with
    | Some explanation => lines ++ [("<p>" ++ explanation ++ "</p>")%string]
    | None => lines
    end in
  let lines :=
    match htmltable.given (table_title self) with
    | Some title =>
        lines ++ [("<table summary=" ++ dq ++ title ++ dq
                   ++ " class=" ++ dq ++ "reporttable" ++ dq ++ ">")%string]
    | None =>
        lines ++ [("<table style=" ++ dq ++ "reporttable" ++ dq ++ ">")%string]
    end in
  lines <-
    (match headers self with
     | Some ((_ :: _) as headers) =>
         let lines := lines ++ ["  <thead>"] in
         lines <- render_headers headers lines ;;
         Ok (lines ++ ["  </thead>"])
     | _ => Ok lines
     end) ;;
  let lines := lines ++ ["  <tbody>"] in
  lines <- render_rowsets self 0 rowsets lines ;;
  let lines := lines ++ ["  </tbody>"] in
  let lines := lines ++ ["</table>"] in
  Ok lines.

(** [HTMLTable.render]. *)
Definition render (self : TableBase) (rowsets : list rowset) : result string :=
  lines <- render_lines self rowsets ;;
  Ok (String.concat newline lines).
End Render.

End TableFactory_py.

(** ** Vocabulary of the further statements *)

(** The cells of every row of every rowset, in rendering order. *)
Definition all_cells (rowsets : list rowset) : list Cell :=
  flat_map (fun rowset => flat_map cells (subrows rowset)) rowsets.

(** The lines of a rendering that hold a body cell, and those that hold a
    header cell. *)
Definition is_td_line (line : string) : bool := starts_with "      <td" line.
Definition is_th_line (line : string) : bool := starts_with "      <th" line.

(** A second record for [spec_a_xy]. *)
Definition record_xy_2 : pyval :=
  PObj None [("a", PStr "two"); ("x", PObj (Some [("y", PNone)]) [])].




(** [[f(x) for x in l]], stopping at the first element that raises. *)
Fixpoint mapM {A B : Type} (f : A -> result B) (l : list A) : result (list B) :=
  match l with
  | [] => Ok []
  | x :: rest =>
      y <- f x ;;
      ys <- mapM f rest ;;
      Ok (y :: ys)
  end.

(** The columns of all the header rows of a table, in order. *)
Definition header_columns (self : TableBase) : list ColumnSpec :=
  match headers self with
  | Some headers => flat_map columnspecs headers
  | None => []
  end.

(** The line of a header column. *)
Definition th_line (repr : pyval -> string) (column : ColumnSpec) : result string :=
  lines <- htmltable.render_headercolumns repr [column] [] ;;
  Ok (String.concat "" lines).

(** A table with a title, an explanation and two header rows, and a table
    whose header has a two-segment column without a title. *)
Definition header_1 : RowSpec :=
  mkRowSpec [ColumnSpec_init (Name "a") (PStr "A & B") [];
             ColumnSpec_init (Names ["x"; "y"]) (PStr "Y") [("span", PInt 3)]].

Definition titled_table : TableBase :=
  TableBase_init (Some "T") (Some "why") (RowSpecs [header_1; spec_a_xy]).

Definition tuple_header_table : TableBase :=
  TableBase_init None None
    (OneRowSpec (mkRowSpec [ColumnSpec_init (Names ["x"; "y"]) PNone []])).

Definition titled_lines : list string :=
  Eval vm_compute in
    match htmltable.render_lines no_repr titled_table two_by_two with
    | Ok lines => lines
    | Err _ => []
    end.

(** The arguments of a [ColumnSpec] with a single name, and the ColumnSpec
    either distribution makes of them. *)
Definition column_args : Type := (string * pyval * list (string * pyval))%type.

Definition old_column (args : column_args) : TableFactory_py.ColumnSpec :=
  let '(attribute, title, properties) := args in
  TableFactory_py.ColumnSpec_init attribute title properties.

Definition new_column (args : column_args) : ColumnSpec :=
  let '(attribute, title, properties) := args in
  ColumnSpec_init (Name attribute) title properties.

(** The opening tags of the body rows in the markup of TableFactory.py. *)
Fixpoint old_tr_lines (rowsetindex : nat) (rowsets : list rowset) : list string :=
  match rowsets with
  | [] => []
  | rowset :: rest =>
      repeat ("    <tr class=" ++ dq ++ "tr_" ++ stripe rowsetindex ++ dq ++ ">")%string
             (List.length (subrows rowset))
      ++ old_tr_lines (S rowsetindex) rest
  end.

Definition old_plain_table : TableFactory_py.TableBase :=
  TableFactory_py.mkTableBase None None None.

Definition old_one_and_three_lines : list string :=
  Eval vm_compute in
    match TableFactory_py.render_lines no_repr old_plain_table one_and_three with
    | Ok lines => lines
    | Err _ => []
    end.

(** ** spreadsheettable.py

    The workbook is xlwt's: what is modelled is what [SpreadsheetTable]
    does itself, the styles it makes and caches and the calls it makes on
    the worksheet, in order, with their arguments.  The calls are recorded
    as they are made; what xlwt does with them is outside the model. *)

Module spreadsheettable.
Import layout base.

Inductive horz : Type :=
| HORZ_GENERAL
| HORZ_RIGHT.

(** An [xlwt.XFStyle], as far as the code reads and writes it:
    [font.bold], [alignment.horz] and [num_format_str]. *)
Record XFStyle : Type := mkXFStyle {
  font_bold : bool;
  alignment_horz : horz;
  num_format_str : string
}.

(** [xlwt.easyxf(num_format_str=...)]. *)
Definition easyxf (num_format_str : string) : XFStyle :=
  mkXFStyle false HORZ_GENERAL num_format_str.

(** The keys of [styletypemap]: [None], or a type. *)
Inductive typekey : Type :=
| NoType
| Type_ (t : pytype)
| date_type
| datetime_type.

Definition typekey_eqb (a b : typekey) : bool :=
  match a, b with
  | NoType, NoType | date_type, date_type | datetime_type, datetime_type => true
  | Type_ t, Type_ u => pytype_eqb t u
  | _, _ => false
  end.

(** The keys of the styles of one type: [None] for the style the others are
    copied from, or the sorted tuple of the attributes. *)
Definition attrskey : Type := option (list string).

Definition attrskey_eqb (a b : attrskey) : bool :=
  match a, b with
  | None, None => true
  | Some x, Some y =>
      if list_eq_dec string_dec x y then true else false
  | _, _ => false
  end.

(** [d[key]], [None] being the [KeyError] case, and [d[key] = v]. *)
Fixpoint find {K V : Type} (eqb : K -> K -> bool) (d : list (K * V)) (key : K)
    : option V :=
  match d with
  | [] => None
  | (k, v) :: rest => if eqb k key then Some v else find eqb rest key
  end.

Fixpoint set {K V : Type} (eqb : K -> K -> bool) (d : list (K * V)) (key : K)
    (v : V) : list (K * V) :=
  match d with
  | [] => [(key, v)]
  | (k, w) :: rest =>
      if eqb k key then (k, v) :: rest else (k, w) :: set eqb rest key v
  end.

Definition cellstyles : Type := list (attrskey * XFStyle).
Definition styletypemap : Type := list (typekey * cellstyles).

(** The class attribute [styletypemap] as the class body sets it. *)
Definition styletypemap_init : styletypemap :=
  [(NoType, [(None, easyxf "General")]);
   (date_type, [(None, easyxf "YYYY-MM-DD")]);
   (datetime_type, [(None, easyxf "YYYY-MM-DD HH:MM:SS")])].

(** [SpreadsheetTable._getstyle], on the [styletypemap] it finds, with
    the [styletypemap] it leaves. *)
Definition _getstyle (cell : Cell) (m : styletypemap)
    : result (XFStyle * styletypemap) :=
  keyed <-
    (match find typekey_eqb m (Type_ (type_of (value cell))) with
     | Some cellstyles => Ok (Type_ (type_of (value cell)), cellstyles)
     | None =>
         match find typekey_eqb m NoType with
         | Some cellstyles => Ok (NoType, cellstyles)
         | None => Err KeyError
         end
     end) ;;
  let '(key, cellstyles) := keyed in
  let attrs := [] in
  bold <- StyleAttributes_getattr (style cell) "bold" ;;
  let attrs := if truthy bold then attrs ++ ["bold"] else attrs in
  money <- StyleAttributes_getattr (style cell) "money" ;;
  let attrs := if truthy money then attrs ++ ["money"] else attrs in
  match find attrskey_eqb cellstyles (Some attrs) with
  | Some cellstyle => Ok (cellstyle, m)
  | None =>
      match find attrskey_eqb cellstyles None with
      | None => Err KeyError
      | Some default =>
          let cellstyle := default in
          let cellstyle :=
            if truthy bold
            then mkXFStyle true (alignment_horz cellstyle) (num_format_str cellstyle)
            else cellstyle in
          let cellstyle :=
            if truthy money
            then mkXFStyle (font_bold cellstyle) HORZ_RIGHT "0.00"
            else cellstyle in
          Ok (cellstyle,
              set typekey_eqb m key
                  (set attrskey_eqb cellstyles (Some attrs) cellstyle))
      end
  end.










End spreadsheettable.

(** The style [s] is the style [d] with the attributes applied. *)
Definition styled_from (d s : spreadsheettable.XFStyle) (bold money : bool) : Prop :=
  spreadsheettable.font_bold s = (bold || spreadsheettable.font_bold d) /\
  spreadsheettable.alignment_horz s
  = (if money then spreadsheettable.HORZ_RIGHT
     else spreadsheettable.alignment_horz d) /\
  spreadsheettable.num_format_str s
  = (if money then "0.00" else spreadsheettable.num_format_str d).

Definition has (name : string) (attrs : list string) : bool :=
  existsb (String.eqb name) attrs.

(** A [styletypemap] with the keys of the class's, in which no type has
    styles of its own, and in which the cached styles are the default
    style with the attributes of their key applied. *)
Definition standard (m : spreadsheettable.styletypemap) : Prop :=
  exists cellstyles,
    spreadsheettable.find spreadsheettable.typekey_eqb m spreadsheettable.NoType
    = Some cellstyles /\
    (forall t, spreadsheettable.find spreadsheettable.typekey_eqb m
                 (spreadsheettable.Type_ t) = None) /\
    spreadsheettable.find spreadsheettable.attrskey_eqb cellstyles None
    = Some (spreadsheettable.easyxf "General") /\
    forall attrs s,
      spreadsheettable.find spreadsheettable.attrskey_eqb cellstyles (Some attrs)
      = Some s ->
      styled_from (spreadsheettable.easyxf "General") s
                  (has "bold" attrs) (has "money" attrs).


Definition span_of (cell : Cell) : Z :=
  match stored (style cell) "span" with
  | PInt z => z
  | _ => 1%Z
  end.

(** The cells of a row with their columns, the first at [colnum]: each
    cell starts where the span of the one before ends. *)
Fixpoint columns (colnum : Z) (subrow : list Cell) : list (Z * Cell) :=
  match subrow with
  | [] => []
  | cell :: rest => (colnum, cell) :: columns (colnum + span_of cell) rest
  end.






(** * Properties *)

(** ** The error monad *)

Lemma bind_Ok {A B : Type} (r : result A) (k : A -> result B) (b : B) :
  bind r k = Ok b -> exists a, r = Ok a /\ k a = Ok b.
Proof.
  destruct r as [a | e]; simpl; intros H.
  - exists a; split; [reflexivity | exact H].
  - discriminate H.
Qed.

Lemma bind_Err {A B : Type} (r : result A) (k : A -> result B) (e : exn) :
  bind r k = Err e -> r = Err e \/ exists a, r = Ok a /\ k a = Err e.
Proof.
  destruct r as [a | e']; simpl; intros H.
  - right; exists a; split; [reflexivity | exact H].
  - left; injection H as ->; reflexivity.
Qed.

(** ** Lookups *)









(** ** The row factory *)











(** ** StyleAttributes *)


Lemma getattr_other (self : StyleAttributes) (key : string) :
  key <> "width" -> key <> "span" ->
  StyleAttributes_getattr self key = Ok (stored self key).
Proof.
  intros Hw Hs. unfold StyleAttributes_getattr, stored.
  apply String.eqb_neq in Hw, Hs. rewrite Hw, Hs. reflexivity.
Qed.

Lemma getattr_span (self : StyleAttributes) :
  StyleAttributes_getattr self "span"
  = Ok (if is_None (stored self "span") then PInt 1 else stored self "span").
Proof.
  unfold StyleAttributes_getattr, stored. simpl.
  destruct (is_None _); reflexivity.
Qed.




(** ** ColumnSpec *)

(** C8, as stated, fails: the default title of a tuple path is the whole
    tuple, not its first segment, and an empty title counts as no title. *)
Lemma ColumnSpec_title_not_first_segment :
  attributes (ColumnSpec_init (Names ["x"; "y"]) PNone []) = ["x"; "y"] /\
  layout.title (ColumnSpec_init (Names ["x"; "y"]) PNone [])
  = PTuple [PStr "x"; PStr "y"] /\
  layout.title (ColumnSpec_init (Names ["x"; "y"]) PNone []) <> PStr "x" /\
  layout.title (ColumnSpec_init (Name "a") (PStr "") []) <> PStr "".
Proof.
  repeat apply conj; try reflexivity; discriminate.
Qed.

(** C8, amended.  A ColumnSpec constructed without a title, or with a title
    that is false (such as the empty string), has for title its
    [attribute] argument as it was given: the name, which is the only
    segment of the path, or the whole tuple of names.  A title that is true
    is the title. *)
Theorem ColumnSpec_title_default :
  (forall name properties,
     layout.title (ColumnSpec_init (Name name) PNone properties) = PStr name /\
     attributes (ColumnSpec_init (Name name) PNone properties) = [name]) /\
  (forall names properties,
     layout.title (ColumnSpec_init (Names names) PNone properties)
     = PTuple (map PStr names) /\
     attributes (ColumnSpec_init (Names names) PNone properties) = names) /\
  (forall attribute title properties, truthy title = false ->
     layout.title (ColumnSpec_init attribute title properties)
     = attribute_value attribute) /\
  (forall attribute title properties, truthy title = true ->
     layout.title (ColumnSpec_init attribute title properties) = title).
Proof.
  repeat apply conj.
  - intros name properties. split; reflexivity.
  - intros names properties. split; reflexivity.
  - intros attribute title properties H. simpl. rewrite H. reflexivity.
  - intros attribute title properties H. simpl. rewrite H. reflexivity.
Qed.

(** ** Text *)

Lemma append_assoc (a b c : string) :
  ((a ++ b) ++ c = a ++ (b ++ c))%string.
Proof.
  induction a as [ | x a IH]; simpl; [reflexivity | rewrite IH; reflexivity].
Qed.

Lemma occurs_app (c : ascii) (a b : string) :
  occurs c (a ++ b) = occurs c a || occurs c b.
Proof.
  induction a as [ | x a IH]; simpl; [reflexivity | ].
  rewrite IH. apply orb_assoc.
Qed.

Lemma replace_char_app (old : ascii) (new a b : string) :
  replace_char old new (a ++ b)
  = (replace_char old new a ++ replace_char old new b)%string.
Proof.
  induction a as [ | x a IH]; simpl; [reflexivity | ].
  destruct (Ascii.eqb x old); rewrite IH.
  - symmetry. apply append_assoc.
  - reflexivity.
Qed.

Lemma replace_char_absent (old : ascii) (new s : string) :
  occurs old s = false -> replace_char old new s = s.
Proof.
  induction s as [ | x s IH]; simpl; [reflexivity | ].
  intros H. apply orb_false_iff in H. destruct H as [Hx Hs].
  rewrite Hx, (IH Hs). reflexivity.
Qed.

(** What is absent from the text and from the replacement is absent from
    the result. *)
Lemma replace_char_keeps_absent (c old : ascii) (new s : string) :
  occurs c new = false ->
  (c = old \/ occurs c s = false) ->
  occurs c (replace_char old new s) = false.
Proof.
  intros Hnew. induction s as [ | x s IH]; simpl; [reflexivity | ].
  intros H. destruct (Ascii.eqb x old) eqn:Hx.
  - rewrite occurs_app, Hnew. simpl. apply IH.
    destruct H as [H | H]; [left; exact H | ].
    right. apply orb_false_iff in H. tauto.
  - simpl. destruct H as [-> | H].
    + rewrite Hx. simpl. apply IH. left; reflexivity.
    + apply orb_false_iff in H. destruct H as [H1 H2].
      rewrite H1. simpl. apply IH. right; exact H2.
Qed.


(** ** Cells in markup *)

Lemma cssstring_total (st : StyleAttributes) :
  exists css, htmltable.cssstring st = Ok css.
Proof.
  unfold htmltable.cssstring.
  rewrite (getattr_other st "bold"), (getattr_other st "money") by discriminate.
  simpl.
  destruct (truthy (stored st "bold")), (truthy (stored st "money"));
    eexists; reflexivity.
Qed.

Lemma cast_raw (repr : pyval -> string) (self : TableBase) (cell : Cell) :
  truthy (stored (style cell) "raw") = true ->
  _cast repr self cell = Ok (value cell).
Proof.
  intros H. unfold _cast.
  rewrite (getattr_other (style cell) "raw") by discriminate.
  simpl. rewrite H. reflexivity.
Qed.

Lemma cast_not_raw (repr : pyval -> string) (self : TableBase) (cell : Cell) :
  truthy (stored (style cell) "raw") = false ->
  _cast repr self cell
  = Ok (PStr (if is_None (value cell) then ""
              else cgi_escape (display repr self (value cell)))).
Proof.
  intros H. unfold _cast.
  rewrite (getattr_other (style cell) "raw") by discriminate.
  simpl. rewrite H. destruct (is_None (value cell)); reflexivity.
Qed.

Lemma rendercell_text (repr : pyval -> string) (self : TableBase) (cell : Cell)
    (text css cs : string) :
  _cast repr self cell = Ok (PStr text) ->
  htmltable.cssstring (style cell) = Ok css -> htmltable.colspanstring (style cell) = Ok cs ->
  htmltable._rendercell repr self cell
  = Ok ("<td" ++ css ++ cs ++ ">" ++ replace_char CR "<br />" text ++ "</td>")%string.
Proof.
  intros Hcast Hcss Hcs. unfold htmltable._rendercell.
  rewrite Hcss, Hcs, Hcast. reflexivity.
Qed.


(** C10.  Whatever text [_cast] gives for a cell, raw or not, it is
    embedded in the [td] with every carriage return replaced by [<br />]:
    no carriage return is left, each one stands as [<br />] between the
    replaced parts, and a text without carriage returns is embedded as it
    is. *)
Theorem rendercell_replaces_CR (repr : pyval -> string) (self : TableBase)
    (cell : Cell) (text cs : string) :
  _cast repr self cell = Ok (PStr text) ->
  htmltable.colspanstring (style cell) = Ok cs ->
  exists css, htmltable.cssstring (style cell) = Ok css /\
    let embedded := replace_char CR "<br />" text in
    htmltable._rendercell repr self cell
    = Ok ("<td" ++ css ++ cs ++ ">" ++ embedded ++ "</td>")%string /\
    occurs CR embedded = false /\
    (forall a b, text = (a ++ String CR b)%string ->
       embedded = (replace_char CR "<br />" a ++ "<br />"
                   ++ replace_char CR "<br />" b)%string) /\
    (occurs CR text = false -> embedded = text).
Proof.
  intros Hcast Hcs. destruct (cssstring_total (style cell)) as [css Hcss].
  exists css. split; [exact Hcss | ]. intros embedded. repeat apply conj.
  - apply rendercell_text; assumption.
  - apply replace_char_keeps_absent; [reflexivity | left; reflexivity].
  - intros a b ->. unfold embedded. rewrite replace_char_app. reflexivity.
  - apply replace_char_absent.
Qed.

(** ** Cells without a value *)

(** Where C6 holds: a cell without a value whose [raw] option is not set
    casts to the empty string, and its [td] is empty. *)
Lemma cast_None_not_raw (repr : pyval -> string) (self : TableBase) (cell : Cell)
    (cs : string) :
  value cell = PNone -> truthy (stored (style cell) "raw") = false ->
  htmltable.colspanstring (style cell) = Ok cs ->
  _cast repr self cell = Ok (PStr "") /\
  exists css, htmltable.cssstring (style cell) = Ok css /\
    htmltable._rendercell repr self cell = Ok ("<td" ++ css ++ cs ++ "></td>")%string.
Proof.
  intros Hv Hraw Hcs.
  assert (Hcast : _cast repr self cell = Ok (PStr ""))
    by (rewrite cast_not_raw by exact Hraw; rewrite Hv; reflexivity).
  split; [exact Hcast | ].
  destruct (cssstring_total (style cell)) as [css Hcss].
  exists css. split; [exact Hcss | ].
  rewrite (rendercell_text repr self cell "" css cs Hcast Hcss Hcs). reflexivity.
Qed.

(** ** The lines of a rendering *)

Lemma filter_snoc {A : Type} (f : A -> bool) (l : list A) (x : A) :
  filter f (l ++ [x]) = filter f l ++ (if f x then [x] else []).
Proof. rewrite filter_app. reflexivity. Qed.

Lemma is_tr_line_tr_line (trclasses : list string) :
  is_tr_line (htmltable.tr_line trclasses) = true.
Proof. reflexivity. Qed.

(** Splits off the last line of a filtered list and decides whether it
    opens a body row. *)
Ltac last_line :=
  rewrite filter_snoc;
  match goal with
  | |- context [if is_tr_line ?l then _ else _] =>
      first [ replace (is_tr_line l) with false by reflexivity
            | replace (is_tr_line l) with true by reflexivity ]
  end;
  try rewrite app_nil_r.

Section Lines.
Variable repr : pyval -> string.
Variable self : TableBase.

Lemma render_cells_trs (subrow : list Cell) :
  forall lines out,
    htmltable.render_cells repr self subrow lines = Ok out ->
    filter is_tr_line out = filter is_tr_line lines.
Proof.
  induction subrow as [ | cell rest IH]; intros lines out; simpl.
  - intros [= <-]. reflexivity.
  - intros H. apply bind_Ok in H. destruct H as [td [_ H]].
    rewrite (IH _ _ H). last_line. reflexivity.
Qed.

Lemma render_subrows_trs (rowsetindex : nat) (rowset : list TableRow) :
  forall subrowindex lines out,
    htmltable.render_subrows repr self rowsetindex subrowindex rowset lines = Ok out ->
    filter is_tr_line out
    = filter is_tr_line lines
      ++ map (fun j => htmltable.tr_line (htmltable.trclasses rowsetindex j))
             (seq subrowindex (List.length rowset)).
Proof.
  induction rowset as [ | subrow rest IH]; intros subrowindex lines out; simpl.
  - intros [= <-]. symmetry. apply app_nil_r.
  - intros H. apply bind_Ok in H. destruct H as [lines' [Hcells H]].
    rewrite (IH _ _ _ H). last_line.
    rewrite (render_cells_trs _ _ _ Hcells). last_line.
    rewrite <- app_assoc. reflexivity.
Qed.

Lemma render_rowsets_trs (rowsets : list rowset) :
  forall rowsetindex lines out,
    htmltable.render_rowsets repr self rowsetindex rowsets lines = Ok out ->
    filter is_tr_line out = filter is_tr_line lines ++ tr_lines rowsetindex rowsets.
Proof.
  induction rowsets as [ | rowset rest IH]; intros rowsetindex lines out; simpl.
  - intros [= <-]. symmetry. apply app_nil_r.
  - intros H. apply bind_Ok in H. destruct H as [lines' [Hsub H]].
    rewrite (IH _ _ _ H), (render_subrows_trs _ _ _ _ _ Hsub), <- app_assoc.
    reflexivity.
Qed.

Lemma render_headercolumns_trs (headerrow : list ColumnSpec) :
  forall lines out,
    htmltable.render_headercolumns repr headerrow lines = Ok out ->
    filter is_tr_line out = filter is_tr_line lines.
Proof.
  induction headerrow as [ | column rest IH]; intros lines out; simpl.
  - intros [= <-]. reflexivity.
  - intros H. apply bind_Ok in H. destruct H as [span [_ H]].
    apply bind_Ok in H. destruct H as [line [Hline H]].
    rewrite (IH _ _ H).
    destruct (gt_int span 1);
      apply bind_Ok in Hline; destruct Hline as [d [_ [= <-]]];
      last_line; reflexivity.
Qed.

Lemma render_headers_trs (headers : list RowSpec) :
  forall lines out,
    htmltable.render_headers repr headers lines = Ok out ->
    filter is_tr_line out = filter is_tr_line lines.
Proof.
  induction headers as [ | headerrow rest IH]; intros lines out; simpl.
  - intros [= <-]. reflexivity.
  - intros H. apply bind_Ok in H. destruct H as [lines' [Hcols H]].
    rewrite (IH _ _ H). last_line.
    rewrite (render_headercolumns_trs _ _ _ Hcols). last_line. reflexivity.
Qed.

(** The body-row opening tags of a rendering are those of its rowsets. *)
Lemma render_lines_trs (rowsets : list rowset) (lines : list string) :
  htmltable.render_lines repr self rowsets = Ok lines ->
  filter is_tr_line lines = tr_lines 0 rowsets.
Proof.
  unfold htmltable.render_lines. intros H.
  apply bind_Ok in H. destruct H as [head [Hhead H]].
  apply bind_Ok in H. destruct H as [body [Hbody [= <-]]].
  do 2 last_line.
  rewrite (render_rowsets_trs _ _ _ _ Hbody). last_line.
  assert (Hno : filter is_tr_line head = []); [ | rewrite Hno; reflexivity].
  destruct (htmltable.given (base.title self)),
           (htmltable.given (explanation self)),
           (headers self) as [[ | headerrow rest] | ];
    cbv zeta in Hhead;
    try (injection Hhead as <-; reflexivity);
    apply bind_Ok in Hhead; destruct Hhead as [lines' [Hh [= <-]]];
    last_line; rewrite (render_headers_trs _ _ _ Hh); reflexivity.
Qed.
End Lines.

(** ** Stripes and child rows *)

Lemma zebra_stripe (i : nat) :
  nth (i mod 2) htmltable.cssdefs_zebra "" = stripe i.
Proof.
  unfold stripe.
  pose proof (Nat.div_mod_eq i 2) as Hdiv.
  pose proof (Nat.mod_upper_bound i 2 ltac:(discriminate)) as Hlt.
  destruct (i mod 2) as [ | [ | k]] eqn:Hm; [ | | lia].
  - replace (Nat.even i) with (Nat.even (2 * (i / 2))) by (f_equal; lia).
    rewrite Nat.even_even. reflexivity.
  - replace (Nat.even i) with (Nat.even (2 * (i / 2) + 1)) by (f_equal; lia).
    rewrite Nat.even_odd. reflexivity.
Qed.

Lemma trclasses_first (i : nat) :
  htmltable.trclasses i 0 = [stripe i].
Proof. unfold htmltable.trclasses. rewrite zebra_stripe. reflexivity. Qed.

Lemma trclasses_child (i j : nat) :
  htmltable.trclasses i (S j) = [stripe i; htmltable.cssdefs_childrow].
Proof. unfold htmltable.trclasses. rewrite zebra_stripe. reflexivity. Qed.

Lemma stripe_alternates (i : nat) :
  stripe (S i) <> stripe i /\ stripe (S (S i)) = stripe i.
Proof.
  unfold stripe. rewrite Nat.even_succ_succ, Nat.even_succ, <- Nat.negb_even.
  destruct (Nat.even i); split; solve [reflexivity | discriminate].
Qed.

(** The row [j] of the rowset [i] has its opening tag at its place among
    the opening tags. *)
Lemma tr_lines_nth (rowsets : list rowset) :
  forall start i rowset j,
    nth_error rowsets i = Some rowset ->
    j < List.length (subrows rowset) ->
    nth_error (tr_lines start rowsets) (rows_before i rowsets + j)
    = Some (htmltable.tr_line (htmltable.trclasses (start + i) j)).
Proof.
  induction rowsets as [ | r rest IH]; intros start [ | i] rowset j Hi Hj;
    simpl in Hi; try discriminate Hi.
  - injection Hi as ->. unfold rows_before. simpl.
    rewrite nth_error_app1 by (rewrite length_map, length_seq; exact Hj).
    rewrite nth_error_map, nth_error_seq.
    apply Nat.ltb_lt in Hj. rewrite Hj, Nat.add_0_r. reflexivity.
  - unfold rows_before. simpl.
    rewrite nth_error_app2 by (rewrite length_map, length_seq; lia).
    rewrite length_map, length_seq.
    replace (List.length (subrows r)
             + list_sum (map (fun rowset => List.length (subrows rowset))
                             (firstn i rest)) + j - List.length (subrows r))
      with (rows_before i rest + j) by (unfold rows_before; lia).
    rewrite (IH (S start) i rowset j Hi Hj).
    replace (S start + i) with (start + S i) by lia. reflexivity.
Qed.

(** C7.  The opening tags of the body rows of a rendering are, in order,
    those of the rows of each rowset; the tag of every row of the rowset at
    index [i] has for first class the stripe of the parity of [i], whatever
    the row's place in the rowset, and no other stripe; the stripes of two
    consecutive rowsets differ. *)
Theorem render_stripes_by_rowset (repr : pyval -> string) (self : TableBase)
    (rowsets : list rowset) (lines : list string) :
  htmltable.render_lines repr self rowsets = Ok lines ->
  htmltable.render repr self rowsets = Ok (String.concat newline lines) /\
  filter is_tr_line lines = tr_lines 0 rowsets /\
  (forall i rowset j,
     nth_error rowsets i = Some rowset ->
     j < List.length (subrows rowset) ->
     nth_error (filter is_tr_line lines) (rows_before i rowsets + j)
     = Some (htmltable.tr_line (htmltable.trclasses i j)) /\
     hd "" (htmltable.trclasses i j) = stripe i /\
     ~ In (stripe (S i)) (htmltable.trclasses i j)) /\
  (forall i, stripe (S i) <> stripe i /\ stripe (S (S i)) = stripe i).
Proof.
  intros H. pose proof (render_lines_trs repr self rowsets lines H) as Htrs.
  repeat apply conj.
  - unfold htmltable.render. rewrite H. reflexivity.
  - exact Htrs.
  - intros i rowset j Hi Hj. repeat apply conj.
    + rewrite Htrs. exact (tr_lines_nth rowsets 0 i rowset j Hi Hj).
    + destruct j; [rewrite trclasses_first | rewrite trclasses_child]; reflexivity.
    + intros Hin. destruct (stripe_alternates i) as [Hne _].
      destruct j; [rewrite trclasses_first in Hin | rewrite trclasses_child in Hin];
        simpl in Hin.
      * destruct Hin as [Hin | []]. congruence.
      * destruct Hin as [Hin | [Hin | []]]; [congruence | ].
        unfold stripe in Hin. destruct (Nat.even (S i)); discriminate Hin.
  - apply stripe_alternates.
Qed.

(** C9.  The opening tags of the body rows of a rendering are those of the
    rows of each rowset, where the first row of a rowset has the stripe for
    only class and every later row has the stripe and then
    [expand-child]. *)
Theorem render_child_rows (repr : pyval -> string) (self : TableBase)
    (rowsets : list rowset) (lines : list string) :
  htmltable.render_lines repr self rowsets = Ok lines ->
  filter is_tr_line lines = tr_lines 0 rowsets /\
  (forall i rowset j,
     nth_error rowsets i = Some rowset ->
     j < List.length (subrows rowset) ->
     nth_error (filter is_tr_line lines) (rows_before i rowsets + j)
     = Some (htmltable.tr_line (htmltable.trclasses i j))) /\
  (forall i,
     htmltable.trclasses i 0 = [stripe i] /\
     ~ In "expand-child" (htmltable.trclasses i 0) /\
     htmltable.tr_line (htmltable.trclasses i 0)
     = ("    <tr class=" ++ dq ++ stripe i ++ dq ++ ">")%string) /\
  (forall i j,
     htmltable.trclasses i (S j) = [stripe i; "expand-child"] /\
     htmltable.tr_line (htmltable.trclasses i (S j))
     = ("    <tr class=" ++ dq ++ stripe i ++ " expand-child" ++ dq ++ ">")%string).
Proof.
  intros H. pose proof (render_lines_trs repr self rowsets lines H) as Htrs.
  repeat apply conj.
  - exact Htrs.
  - intros i rowset j Hi Hj. rewrite Htrs.
    exact (tr_lines_nth rowsets 0 i rowset j Hi Hj).
  - intros i. rewrite trclasses_first. repeat apply conj.
    + reflexivity.
    + intros [Hin | []]. unfold stripe in Hin.
      destruct (Nat.even i); discriminate Hin.
    + unfold stripe. destruct (Nat.even i); reflexivity.
  - intros i j. rewrite trclasses_child. split.
    + reflexivity.
    + unfold stripe. destruct (Nat.even i); reflexivity.
Qed.

(** The theorem at two rowsets of two rows each. *)
Lemma render_stripes_by_rowset_witness :
  htmltable.render_lines no_repr plain_table two_by_two = Ok two_by_two_lines /\
  filter is_tr_line two_by_two_lines
  = [("    <tr class=" ++ dq ++ "odd" ++ dq ++ ">")%string;
     ("    <tr class=" ++ dq ++ "odd expand-child" ++ dq ++ ">")%string;
     ("    <tr class=" ++ dq ++ "even" ++ dq ++ ">")%string;
     ("    <tr class=" ++ dq ++ "even expand-child" ++ dq ++ ">")%string].
Proof.
  split; [reflexivity | ].
  exact (proj1 (proj2 (render_stripes_by_rowset no_repr plain_table two_by_two
                         two_by_two_lines eq_refl))).
Defined.

(** The theorem at a single row followed by a rowset of three rows. *)
Lemma render_child_rows_witness :
  htmltable.render_lines no_repr plain_table one_and_three = Ok one_and_three_lines /\
  filter is_tr_line one_and_three_lines
  = [("    <tr class=" ++ dq ++ "odd" ++ dq ++ ">")%string;
     ("    <tr class=" ++ dq ++ "even" ++ dq ++ ">")%string;
     ("    <tr class=" ++ dq ++ "even expand-child" ++ dq ++ ">")%string;
     ("    <tr class=" ++ dq ++ "even expand-child" ++ dq ++ ">")%string].
Proof.
  split; [reflexivity | ].
  exact (proj1 (render_child_rows no_repr plain_table one_and_three
                  one_and_three_lines eq_refl)).
Defined.


(** The theorem at a raw cell and at an escaped cell spanning two
    columns, each with a carriage return in its text. *)
Lemma rendercell_replaces_CR_witness :
  (_cast no_repr plain_table raw_two_lines
   = Ok (PStr ("<i>a</i>" ++ String CR "b")) /\
   htmltable._rendercell no_repr plain_table raw_two_lines
   = Ok "<td><i>a</i><br />b</td>") /\
  (_cast no_repr plain_table plain_two_lines
   = Ok (PStr ("a&amp;b" ++ String CR "c")) /\
   htmltable._rendercell no_repr plain_table plain_two_lines
   = Ok ("<td colspan=" ++ dq ++ "2" ++ dq ++ ">a&amp;b<br />c</td>")%string).
Proof.
  split; (split; [reflexivity | ]).
  - destruct (rendercell_replaces_CR no_repr plain_table raw_two_lines
                ("<i>a</i>" ++ String CR "b") "" eq_refl eq_refl)
      as [css [Hcss [H _]]].
    injection Hcss as <-. exact H.
  - destruct (rendercell_replaces_CR no_repr plain_table plain_two_lines
                ("a&amp;b" ++ String CR "c") (" colspan=" ++ dq ++ "2" ++ dq)
                eq_refl eq_refl)
      as [css [Hcss [H _]]].
    injection Hcss as <-. exact H.
Defined.

(** ** Cells without a value, raw *)

Section Renders.
Variable repr : pyval -> string.
Variable self : TableBase.

Lemma render_cells_renders (subrow : list Cell) :
  forall lines out,
    htmltable.render_cells repr self subrow lines = Ok out ->
    Forall (renders repr self) subrow.
Proof.
  induction subrow as [ | cell rest IH]; intros lines out; simpl.
  - constructor.
  - intros H. apply bind_Ok in H. destruct H as [td [Htd H]].
    constructor; [exists td; exact Htd | exact (IH _ _ H)].
Qed.

Lemma render_subrows_renders (rowsetindex : nat) (rowset : list TableRow) :
  forall subrowindex lines out,
    htmltable.render_subrows repr self rowsetindex subrowindex rowset lines = Ok out ->
    Forall (fun row => Forall (renders repr self) (cells row)) rowset.
Proof.
  induction rowset as [ | subrow rest IH]; intros subrowindex lines out; simpl.
  - constructor.
  - intros H. apply bind_Ok in H. destruct H as [lines' [Hcells H]].
    constructor; [exact (render_cells_renders _ _ _ Hcells) | exact (IH _ _ _ H)].
Qed.

Lemma render_rowsets_renders (rowsets : list rowset) :
  forall rowsetindex lines out,
    htmltable.render_rowsets repr self rowsetindex rowsets lines = Ok out ->
    Forall (fun rowset => Forall (fun row => Forall (renders repr self) (cells row))
                                 (subrows rowset)) rowsets.
Proof.
  induction rowsets as [ | rowset rest IH]; intros rowsetindex lines out; simpl.
  - constructor.
  - intros H. apply bind_Ok in H. destruct H as [lines' [Hsub H]].
    constructor; [exact (render_subrows_renders _ _ _ _ _ Hsub) | exact (IH _ _ _ H)].
Qed.

(** A rendering is returned only if every cell of every row renders. *)
Lemma render_renders (rowsets : list rowset) (out : string) :
  htmltable.render repr self rowsets = Ok out ->
  forall rowset row cell,
    In rowset rowsets -> In row (subrows rowset) -> In cell (cells row) ->
    exists td, htmltable._rendercell repr self cell = Ok td.
Proof.
  unfold htmltable.render, htmltable.render_lines. intros H.
  apply bind_Ok in H. destruct H as [lines [H _]].
  apply bind_Ok in H. destruct H as [head [_ H]].
  apply bind_Ok in H. destruct H as [body [Hbody _]].
  pose proof (render_rowsets_renders _ _ _ _ Hbody) as Hall.
  intros rowset row cell Hrowset Hrow Hcell.
  rewrite Forall_forall in Hall. specialize (Hall _ Hrowset).
  rewrite Forall_forall in Hall. specialize (Hall _ Hrow).
  rewrite Forall_forall in Hall. exact (Hall _ Hcell).
Qed.
End Renders.

(** C6, on the code: [_cast] returns a raw cell's value before it looks
    for [None], so a raw cell without a value casts to [None] and not to
    the empty string.  [HTMLTable._rendercell] then calls [replace] on
    [None] and the rendering raises [AttributeError]; [PDFTable._rendercell]
    hands [None] to the Paragraph, and the text [None] when the cell is
    bold. *)
Theorem cast_raw_None (repr : pyval -> string) (self : TableBase) (cell : Cell) :
  value cell = PNone -> truthy (stored (style cell) "raw") = true ->
  _cast repr self cell = Ok PNone /\
  (exists e, htmltable._rendercell repr self cell = Err e) /\
  (forall rowsets rowset row,
     In rowset rowsets -> In row (subrows rowset) -> In cell (cells row) ->
     exists e, htmltable.render repr self rowsets = Err e) /\
  htmltable._rendercell repr self raw_None = Err AttributeError /\
  htmltable.render repr plain_table [Single (mkTableRow [raw_None])]
  = Err AttributeError /\
  pdftable._rendercell repr self raw_None
  = Ok (pdftable.mkParagraph PNone pdftable.contentcellstyle) /\
  pdftable._rendercell repr self raw_bold_None
  = Ok (pdftable.mkParagraph (PStr "<b>None</b>") pdftable.contentcellstyle).
Proof.
  intros Hv Hraw.
  assert (Hcast : _cast repr self cell = Ok PNone)
    by (rewrite cast_raw by exact Hraw; rewrite Hv; reflexivity).
  assert (Hcell : exists e, htmltable._rendercell repr self cell = Err e).
  { unfold htmltable._rendercell.
    destruct (cssstring_total (style cell)) as [css ->]. simpl.
    destruct (htmltable.colspanstring (style cell)) as [cs | e]; simpl.
    - rewrite Hcast. simpl. exists AttributeError; reflexivity.
    - exists e; reflexivity. }
  repeat apply conj; try reflexivity.
  - exact Hcast.
  - exact Hcell.
  - intros rowsets rowset row Hrowset Hrow Hin.
    destruct (htmltable.render repr self rowsets) as [out | e] eqn:Hrender.
    + destruct (render_renders repr self rowsets out Hrender _ _ _ Hrowset Hrow Hin)
        as [td Htd].
      destruct Hcell as [e He]. rewrite He in Htd. discriminate Htd.
    + exists e; reflexivity.
Qed.

(** The theorem at the raw cell without a value, in the second row of a
    rowset. *)
Lemma cast_raw_None_witness :
  _cast no_repr plain_table raw_None = Ok PNone /\
  exists e, htmltable.render no_repr plain_table [Group [row_1; mkTableRow [raw_None]]]
            = Err e.
Proof.
  destruct (cast_raw_None no_repr plain_table raw_None eq_refl eq_refl)
    as [Hcast [_ [Hrender _]]].
  split; [exact Hcast | ].
  apply (Hrender _ (Group [row_1; mkTableRow [raw_None]]) (mkTableRow [raw_None]));
    simpl; auto.
Defined.

(** ** When a rendering is returned *)

Lemma colspanstring_int (st : StyleAttributes) :
  (is_None (stored st "span") = true \/ exists z, stored st "span" = PInt z) ->
  exists cs, htmltable.colspanstring st = Ok cs.
Proof.
  unfold htmltable.colspanstring. rewrite getattr_span.
  intros [H | [z H]]; rewrite H; simpl.
  - exists ""; reflexivity.
  - destruct (1 <? z)%Z; eexists; reflexivity.
Qed.

Lemma rendercell_total (repr : pyval -> string) (self : TableBase) (cell : Cell)
    (cs : string) :
  htmltable.colspanstring (style cell) = Ok cs ->
  (truthy (stored (style cell) "raw") = false \/ exists s, value cell = PStr s) ->
  renders repr self cell.
Proof.
  intros Hcs Hcell. destruct (cssstring_total (style cell)) as [css Hcss].
  assert (Hcast : exists text, _cast repr self cell = Ok (PStr text)).
  { destruct (truthy (stored (style cell) "raw")) eqn:Hraw.
    - destruct Hcell as [Hcell | [s Hs]]; [discriminate Hcell | ].
      exists s. rewrite cast_raw by exact Hraw. rewrite Hs. reflexivity.
    - eexists. apply cast_not_raw. exact Hraw. }
  destruct Hcast as [text Hcast].
  eexists. exact (rendercell_text repr self cell text css cs Hcast Hcss Hcs).
Qed.

Section Total.
Variable repr : pyval -> string.
Variable self : TableBase.






End Total.

(** * Further properties *)

(** ** makeall *)

Lemma makeall_Forall2 (S : RowSpec) (Rs : list pyval) :
  forall rows,
    makeall S Rs = Ok rows <->
    Forall2 (fun R row => RowSpec_call S R = Ok row) Rs rows.
Proof.
  induction Rs as [ | R rest IH]; intros rows; simpl.
  - split.
    + intros [= <-]. constructor.
    + intros H. inversion H. reflexivity.
  - split.
    + intros H. apply bind_Ok in H. destruct H as [row [Hrow H]].
      apply bind_Ok in H. destruct H as [rows' [Hrows [= <-]]].
      constructor; [exact Hrow | apply IH; exact Hrows].
    + intros H. inversion H as [ | ? row ? rows' Hrow Hrows]; subst.
      rewrite Hrow. simpl. apply IH in Hrows. rewrite Hrows. reflexivity.
Qed.

(** X1.  [makeall] returns the rows [self(record)] of the records, one per
    record and in the order of the records; it raises when some record
    does, with the error of the first record that raises, the records
    before it having all been converted. *)
Theorem makeall_rows (S : RowSpec) (Rs : list pyval) :
  (forall rows,
     makeall S Rs = Ok rows <->
     Forall2 (fun R row => RowSpec_call S R = Ok row) Rs rows) /\
  (forall e,
     makeall S Rs = Err e <->
     exists before R after rows,
       Rs = before ++ R :: after /\
       makeall S before = Ok rows /\
       RowSpec_call S R = Err e).
Proof.
  split; [apply makeall_Forall2 | ].
  induction Rs as [ | R rest IH]; intros e; simpl.
  - split; [discriminate | ].
    intros [before [R [after [rows [H _]]]]]. destruct before; discriminate H.
  - split.
    + intros H. apply bind_Err in H. destruct H as [H | [row [Hrow H]]].
      * exists [], R, rest, []. auto.
      * apply bind_Err in H. destruct H as [H | [rows [_ H]]]; [ | discriminate H].
        apply IH in H. destruct H as [before [R' [after [rows [-> [Hb HR]]]]]].
        exists (R :: before), R', after, (row :: rows). simpl.
        rewrite Hrow, Hb. auto.
    + intros [before [R' [after [rows [Heq [Hb HR]]]]]].
      destruct before as [ | R0 before]; simpl in Heq; injection Heq as -> ->.
      * rewrite HR. reflexivity.
      * simpl in Hb. apply bind_Ok in Hb. destruct Hb as [row [Hrow Hb]].
        apply bind_Ok in Hb. destruct Hb as [rows' [Hrows _]].
        rewrite Hrow. simpl.
        assert (H : makeall S (before ++ R' :: after) = Err e)
          by (apply IH; exists before, R', after, rows'; auto).
        rewrite H. reflexivity.
Qed.

Lemma call_loop_acc (columns : list ColumnSpec) (R : pyval) :
  forall output,
    call_loop columns R output
    = (new <- call_loop columns R [] ;; Ok (output ++ new)).
Proof.
  induction columns as [ | column rest IH]; intros output; simpl.
  - rewrite app_nil_r. reflexivity.
  - destruct (resolve R (attributes column)) as [v | e]; simpl; [ | reflexivity].
    rewrite (IH (output ++ _)), (IH [_]).
    destruct (call_loop rest R []) as [new | e]; simpl; [ | reflexivity].
    rewrite <- app_assoc. reflexivity.
Qed.

Lemma call_loop_styles (columns : list ColumnSpec) (R : pyval) (new : list Cell) :
  call_loop columns R [] = Ok new ->
  map style new = map column_style columns.
Proof.
  revert new. induction columns as [ | column rest IH]; intros new; simpl.
  - intros [= <-]. reflexivity.
  - intros H. apply bind_Ok in H. destruct H as [v [_ H]].
    rewrite call_loop_acc in H. apply bind_Ok in H.
    destruct H as [new' [Hnew [= <-]]]. simpl.
    rewrite (IH _ Hnew). reflexivity.
Qed.

(** X2.  The rows [makeall] returns all have the shape of the RowSpec: as
    many cells as it has ColumnSpecs, the cell at each place carrying the
    style of the ColumnSpec at that place. *)
Theorem makeall_homogeneous (S : RowSpec) (Rs : list pyval) (rows : list TableRow) :
  makeall S Rs = Ok rows ->
  List.length rows = List.length Rs /\
  Forall (fun row =>
            List.length (cells row) = List.length (columnspecs S) /\
            map style (cells row) = map column_style (columnspecs S)) rows.
Proof.
  intros H. apply makeall_Forall2 in H. split.
  - symmetry. exact (Forall2_length H).
  - induction H as [ | R row Rs' rows' Hrow _ IH]; constructor; [ | exact IH].
    unfold RowSpec_call in Hrow. apply bind_Ok in Hrow.
    destruct Hrow as [new [Hnew [= <-]]]. simpl.
    pose proof (call_loop_styles _ _ _ Hnew) as Hst.
    split; [ | exact Hst].
    rewrite <- (length_map style), Hst. apply length_map.
Qed.

(** The theorem at two records, one a dict and one an instance. *)
Lemma makeall_homogeneous_witness :
  exists rows,
    makeall spec_a_xy [record_xy; record_xy_2] = Ok rows /\
    List.length rows = 2%nat /\
    Forall (fun row =>
              List.length (cells row) = 2%nat /\
              map style (cells row) = map column_style (columnspecs spec_a_xy)) rows.
Proof.
  eexists. split; [reflexivity | ].
  exact (makeall_homogeneous spec_a_xy [record_xy; record_xy_2] _ eq_refl).
Defined.

(** X3.  The cells of a RowSpec made of the columns [a] followed by the
    columns [b] are the cells of [a] followed by the cells of [b]: a
    column's cell does not depend on the other columns, and the call
    raises what the first failing column raises. *)
Theorem RowSpec_call_app (a b : list ColumnSpec) (R : pyval) :
  RowSpec_call (mkRowSpec (a ++ b)) R
  = (row_a <- RowSpec_call (mkRowSpec a) R ;;
     row_b <- RowSpec_call (mkRowSpec b) R ;;
     Ok (mkTableRow (cells row_a ++ cells row_b))).
Proof.
  unfold RowSpec_call. simpl.
  assert (H : forall output,
             call_loop (a ++ b) R output
             = (xs <- call_loop a R output ;; call_loop b R xs)).
  { induction a as [ | column rest IH]; intros output; simpl; [reflexivity | ].
    destruct (resolve R (attributes column)); simpl; [apply IH | reflexivity]. }
  rewrite H.
  destruct (call_loop a R []) as [xs | e]; simpl; [ | reflexivity].
  rewrite call_loop_acc.
  destruct (call_loop b R []) as [ys | e]; reflexivity.
Qed.

(** ** Cells in markup: the attributes of the td *)


(** X5.  The [class] attribute of a cell's [td] is made of [cell_bold] when
    the [bold] option is true and [cell_money] when the [money] option is
    true, in this order, and there is no [class] attribute when neither
    is; computing it never raises. *)
Theorem cssstring_classes (st : StyleAttributes) :
  htmltable.cssstring st
  = Ok (match truthy (stored st "bold"), truthy (stored st "money") with
        | false, false => ""
        | true, false => " class=" ++ dq ++ "cell_bold" ++ dq
        | false, true => " class=" ++ dq ++ "cell_money" ++ dq
        | true, true => " class=" ++ dq ++ "cell_bold cell_money" ++ dq
        end)%string.
Proof.
  unfold htmltable.cssstring.
  rewrite (getattr_other st "bold"), (getattr_other st "money") by discriminate.
  simpl.
  destruct (truthy (stored st "bold")), (truthy (stored st "money")); reflexivity.
Qed.


(** ** Cells in PDF *)



(** ** Formatters *)

Lemma pytype_eqb_eq (a b : pytype) : pytype_eqb a b = true <-> a = b.
Proof.
  split.
  - destruct a, b; simpl; intros H; try reflexivity; discriminate H.
  - intros ->. destruct b; reflexivity.
Qed.


(** ** The loops of render, without their accumulator *)

Section Loops.
Variable repr : pyval -> string.
Variable self : TableBase.

Lemma render_cells_acc (subrow : list Cell) :
  forall lines,
    htmltable.render_cells repr self subrow lines
    = (new <- htmltable.render_cells repr self subrow [] ;; Ok (lines ++ new)).
Proof.
  induction subrow as [ | cell rest IH]; intros lines; simpl.
  - rewrite app_nil_r. reflexivity.
  - destruct (htmltable._rendercell repr self cell) as [td | e]; simpl;
      [ | reflexivity].
    rewrite (IH (lines ++ _)), (IH [_]).
    destruct (htmltable.render_cells repr self rest []) as [new | e]; simpl;
      [ | reflexivity].
    rewrite <- app_assoc. reflexivity.
Qed.

Lemma render_subrows_acc (i : nat) (rowset : list TableRow) :
  forall j lines,
    htmltable.render_subrows repr self i j rowset lines
    = (new <- htmltable.render_subrows repr self i j rowset [] ;; Ok (lines ++ new)).
Proof.
  induction rowset as [ | subrow rest IH]; intros j lines; simpl.
  - rewrite app_nil_r. reflexivity.
  - rewrite (render_cells_acc (cells subrow) (lines ++ _)),
            (render_cells_acc (cells subrow) [_]).
    destruct (htmltable.render_cells repr self (cells subrow) []) as [tds | e];
      simpl; [ | reflexivity].
    rewrite (IH (S j) (_ ++ _)), (IH (S j) (_ :: _)).
    destruct (htmltable.render_subrows repr self i (S j) rest []) as [new | e];
      simpl; [ | reflexivity].
    rewrite <- !app_assoc. reflexivity.
Qed.

Lemma render_rowsets_acc (rowsets : list rowset) :
  forall i lines,
    htmltable.render_rowsets repr self i rowsets lines
    = (new <- htmltable.render_rowsets repr self i rowsets [] ;; Ok (lines ++ new)).
Proof.
  induction rowsets as [ | rowset rest IH]; intros i lines; simpl.
  - rewrite app_nil_r. reflexivity.
  - rewrite (render_subrows_acc i (subrows rowset) 0 lines).
    destruct (htmltable.render_subrows repr self i 0 (subrows rowset) [])
      as [new | e]; simpl; [ | reflexivity].
    rewrite (IH (S i) (lines ++ new)), (IH (S i) new).
    destruct (htmltable.render_rowsets repr self (S i) rest []) as [new' | e];
      simpl; [ | reflexivity].
    rewrite <- app_assoc. reflexivity.
Qed.

Lemma render_rowsets_app (a b : list rowset) :
  forall i lines,
    htmltable.render_rowsets repr self i (a ++ b) lines
    = (xs <- htmltable.render_rowsets repr self i a lines ;;
       htmltable.render_rowsets repr self (i + List.length a) b xs).
Proof.
  induction a as [ | rowset rest IH]; intros i lines; simpl.
  - rewrite Nat.add_0_r. reflexivity.
  - destruct (htmltable.render_subrows repr self i 0 (subrows rowset) lines)
      as [xs | e]; simpl; [ | reflexivity].
    rewrite IH. replace (S i + List.length rest) with (i + S (List.length rest)) by lia.
    reflexivity.
Qed.

Lemma trclasses_shift (i j : nat) :
  htmltable.trclasses (S (S i)) j = htmltable.trclasses i j.
Proof.
  destruct j; [rewrite !trclasses_first | rewrite !trclasses_child];
    rewrite (proj2 (stripe_alternates i)); reflexivity.
Qed.

Lemma render_subrows_shift (i : nat) (rowset : list TableRow) :
  forall j lines,
    htmltable.render_subrows repr self (S (S i)) j rowset lines
    = htmltable.render_subrows repr self i j rowset lines.
Proof.
  induction rowset as [ | subrow rest IH]; intros j lines; simpl; [reflexivity | ].
  rewrite trclasses_shift.
  destruct (htmltable.render_cells repr self (cells subrow) _); simpl;
    [apply IH | reflexivity].
Qed.

Lemma render_rowsets_shift (rowsets : list rowset) :
  forall i lines,
    htmltable.render_rowsets repr self (S (S i)) rowsets lines
    = htmltable.render_rowsets repr self i rowsets lines.
Proof.
  induction rowsets as [ | rowset rest IH]; intros i lines; simpl; [reflexivity | ].
  rewrite render_subrows_shift.
  destruct (htmltable.render_subrows repr self i 0 (subrows rowset) lines); simpl;
    [apply IH | reflexivity].
Qed.

Lemma render_rowsets_even (rowsets : list rowset) (n : nat) :
  Nat.even n = true ->
  forall lines,
    htmltable.render_rowsets repr self n rowsets lines
    = htmltable.render_rowsets repr self 0 rowsets lines.
Proof.
  revert n. fix IH 1. intros [ | [ | n]] Hn lines.
  - reflexivity.
  - discriminate Hn.
  - rewrite render_rowsets_shift. apply IH. exact Hn.
Qed.
End Loops.

(** ** The frame and the body of a rendering *)


(** X11.  The loop over the rowsets composes: the lines of the rowsets [a]
    followed by [b] are the lines of [a] followed by the lines of [b]
    rendered with indices that start at the number of rowsets of [a]; the
    index matters through its parity only, so that when [a] has an even
    number of rowsets the lines of [b] are those it has on its own. *)
Theorem render_rowsets_chunks (repr : pyval -> string) (self : TableBase)
    (a b : list rowset) :
  htmltable.render_rowsets repr self 0 (a ++ b) []
  = (xs <- htmltable.render_rowsets repr self 0 a [] ;;
     ys <- htmltable.render_rowsets repr self (List.length a) b [] ;;
     Ok (xs ++ ys)) /\
  (forall i lines,
     htmltable.render_rowsets repr self (S (S i)) b lines
     = htmltable.render_rowsets repr self i b lines) /\
  (Nat.even (List.length a) = true ->
   htmltable.render_rowsets repr self 0 (a ++ b) []
   = (xs <- htmltable.render_rowsets repr self 0 a [] ;;
      ys <- htmltable.render_rowsets repr self 0 b [] ;;
      Ok (xs ++ ys))).
Proof.
  assert (H : htmltable.render_rowsets repr self 0 (a ++ b) []
              = (xs <- htmltable.render_rowsets repr self 0 a [] ;;
                 ys <- htmltable.render_rowsets repr self (List.length a) b [] ;;
                 Ok (xs ++ ys))).
  { rewrite render_rowsets_app. simpl.
    destruct (htmltable.render_rowsets repr self 0 a []) as [xs | e]; simpl;
      [ | reflexivity].
    apply render_rowsets_acc. }
  repeat apply conj.
  - exact H.
  - intros i lines. apply render_rowsets_shift.
  - intros Heven. rewrite H.
    destruct (htmltable.render_rowsets repr self 0 a []) as [xs | e]; simpl;
      [ | reflexivity].
    rewrite (render_rowsets_even repr self b (List.length a) Heven). reflexivity.
Qed.

(** ** The cell lines and the header lines of a rendering *)

(** Splits off the last line of a list filtered by [f] and decides [f] on
    it. *)
Ltac last_of f :=
  rewrite filter_snoc;
  match goal with
  | |- context [if f ?l then _ else _] =>
      first [ replace (f l) with false by reflexivity
            | replace (f l) with true by reflexivity ]
  end;
  try rewrite app_nil_r.

Lemma mapM_app {A B : Type} (f : A -> result B) (a b : list A) :
  mapM f (a ++ b) = (xs <- mapM f a ;; ys <- mapM f b ;; Ok (xs ++ ys)).
Proof.
  induction a as [ | x a IH]; simpl.
  - destruct (mapM f b); reflexivity.
  - destruct (f x) as [y | e]; simpl; [ | reflexivity].
    rewrite IH. destruct (mapM f a) as [xs | e]; simpl; [ | reflexivity].
    destruct (mapM f b); reflexivity.
Qed.

Lemma mapM_Ok_app {A B : Type} (f : A -> result B) (a b : list A)
    (xs ys : list B) :
  mapM f a = Ok xs -> mapM f b = Ok ys -> mapM f (a ++ b) = Ok (xs ++ ys).
Proof. intros Ha Hb. rewrite mapM_app, Ha, Hb. reflexivity. Qed.

Section CellLines.
Variable repr : pyval -> string.
Variable self : TableBase.

Lemma rendercell_td (cell : Cell) (td : string) :
  htmltable._rendercell repr self cell = Ok td ->
  is_td_line ("      " ++ td) = true /\ is_th_line ("      " ++ td) = false.
Proof.
  unfold htmltable._rendercell. intros H.
  apply bind_Ok in H. destruct H as [css [_ H]].
  apply bind_Ok in H. destruct H as [cs [_ H]].
  apply bind_Ok in H. destruct H as [text [_ H]].
  apply bind_Ok in H. destruct H as [text' [_ [= <-]]].
  split; reflexivity.
Qed.

Lemma render_cells_tds (subrow : list Cell) :
  forall lines out,
    htmltable.render_cells repr self subrow lines = Ok out ->
    filter is_th_line out = filter is_th_line lines /\
    exists tds,
      mapM (htmltable._rendercell repr self) subrow = Ok tds /\
      filter is_td_line out
      = filter is_td_line lines ++ map (append "      ") tds.
Proof.
  induction subrow as [ | cell rest IH]; intros lines out;
    cbn [htmltable.render_cells mapM].
  - intros [= <-]. split; [reflexivity | ].
    exists []. rewrite app_nil_r. auto.
  - intros H. apply bind_Ok in H. destruct H as [td [Htd H]].
    destruct (IH _ _ H) as [Hth [tds [Htds Hout]]].
    destruct (rendercell_td _ _ Htd) as [Hyes Hno].
    split.
    + rewrite Hth, filter_snoc, Hno. apply app_nil_r.
    + exists (td :: tds). rewrite Htd, Htds. split; [reflexivity | ].
      rewrite Hout, filter_snoc, Hyes, <- app_assoc. reflexivity.
Qed.

Lemma render_subrows_tds (i : nat) (rowset : list TableRow) :
  forall j lines out,
    htmltable.render_subrows repr self i j rowset lines = Ok out ->
    filter is_th_line out = filter is_th_line lines /\
    exists tds,
      mapM (htmltable._rendercell repr self) (flat_map cells rowset) = Ok tds /\
      filter is_td_line out
      = filter is_td_line lines ++ map (append "      ") tds.
Proof.
  induction rowset as [ | subrow rest IH]; intros j lines out; simpl.
  - intros [= <-]. split; [reflexivity | ].
    exists []. rewrite app_nil_r. auto.
  - intros H. apply bind_Ok in H. destruct H as [lines' [Hcells H]].
    destruct (IH _ _ _ H) as [Hth [tds' [Htds' Hout]]].
    destruct (render_cells_tds _ _ _ Hcells) as [Hth' [tds [Htds Hlines']]].
    split.
    + rewrite Hth. last_of is_th_line. rewrite Hth'. last_of is_th_line.
      reflexivity.
    + exists (tds ++ tds'). split; [exact (mapM_Ok_app _ _ _ _ _ Htds Htds') | ].
      rewrite Hout. last_of is_td_line. rewrite Hlines'. last_of is_td_line.
      rewrite map_app, <- app_assoc. reflexivity.
Qed.

Lemma render_rowsets_tds (rowsets : list rowset) :
  forall i lines out,
    htmltable.render_rowsets repr self i rowsets lines = Ok out ->
    filter is_th_line out = filter is_th_line lines /\
    exists tds,
      mapM (htmltable._rendercell repr self) (all_cells rowsets) = Ok tds /\
      filter is_td_line out
      = filter is_td_line lines ++ map (append "      ") tds.
Proof.
  induction rowsets as [ | rowset rest IH]; intros i lines out; simpl.
  - intros [= <-]. split; [reflexivity | ].
    exists []. rewrite app_nil_r. auto.
  - intros H. apply bind_Ok in H. destruct H as [lines' [Hsub H]].
    destruct (IH _ _ _ H) as [Hth [tds' [Htds' Hout]]].
    destruct (render_subrows_tds _ _ _ _ _ Hsub) as [Hth' [tds [Htds Hlines']]].
    split; [rewrite Hth; exact Hth' | ].
    exists (tds ++ tds'). split.
    + exact (mapM_Ok_app _ _ _ _ _ Htds Htds').
    + rewrite Hout, Hlines', map_app, <- app_assoc. reflexivity.
Qed.

Lemma render_headercolumns_ths (headerrow : list ColumnSpec) :
  forall lines out,
    htmltable.render_headercolumns repr headerrow lines = Ok out ->
    filter is_td_line out = filter is_td_line lines /\
    exists ths,
      mapM (th_line repr) headerrow = Ok ths /\
      filter is_th_line out = filter is_th_line lines ++ ths.
Proof.
  induction headerrow as [ | column rest IH]; intros lines out; simpl.
  - intros [= <-]. split; [reflexivity | ].
    exists []. rewrite app_nil_r. auto.
  - intros H. apply bind_Ok in H. destruct H as [span [Hspan H]].
    apply bind_Ok in H. destruct H as [line [Hline H]].
    destruct (IH _ _ H) as [Htd [ths [Hths Hout]]].
    assert (Hth : th_line repr column = Ok line)
      by (unfold th_line; simpl; rewrite Hspan; simpl; rewrite Hline; reflexivity).
    assert (Hshape : is_td_line line = false /\ is_th_line line = true).
    { destruct (gt_int span 1);
        apply bind_Ok in Hline; destruct Hline as [d [_ [= <-]]];
        split; reflexivity. }
    destruct Hshape as [Hno Hyes]. split.
    + rewrite Htd, filter_snoc, Hno. apply app_nil_r.
    + exists (line :: ths). rewrite Hth, Hths. split; [reflexivity | ].
      rewrite Hout, filter_snoc, Hyes, <- app_assoc. reflexivity.
Qed.

Lemma render_headers_ths (headers : list RowSpec) :
  forall lines out,
    htmltable.render_headers repr headers lines = Ok out ->
    filter is_td_line out = filter is_td_line lines /\
    exists ths,
      mapM (th_line repr) (flat_map columnspecs headers) = Ok ths /\
      filter is_th_line out = filter is_th_line lines ++ ths.
Proof.
  induction headers as [ | headerrow rest IH]; intros lines out; simpl.
  - intros [= <-]. split; [reflexivity | ].
    exists []. rewrite app_nil_r. auto.
  - intros H. apply bind_Ok in H. destruct H as [lines' [Hcols H]].
    destruct (IH _ _ H) as [Htd [ths' [Hths' Hout]]].
    destruct (render_headercolumns_ths _ _ _ Hcols) as [Htd' [ths [Hths Hlines']]].
    split.
    + rewrite Htd. last_of is_td_line. rewrite Htd'. last_of is_td_line.
      reflexivity.
    + exists (ths ++ ths'). split; [exact (mapM_Ok_app _ _ _ _ _ Hths Hths') | ].
      rewrite Hout. last_of is_th_line. rewrite Hlines'. last_of is_th_line.
      rewrite <- app_assoc. reflexivity.
Qed.

(** The cell lines and the header lines of a rendering. *)
Lemma render_lines_cells (rowsets : list rowset) (lines : list string) :
  htmltable.render_lines repr self rowsets = Ok lines ->
  (exists tds,
     mapM (htmltable._rendercell repr self) (all_cells rowsets) = Ok tds /\
     filter is_td_line lines = map (append "      ") tds) /\
  (exists ths,
     mapM (th_line repr) (header_columns self) = Ok ths /\
     filter is_th_line lines = ths).
Proof.
  unfold htmltable.render_lines. intros H.
  apply bind_Ok in H. destruct H as [head [Hhead H]].
  apply bind_Ok in H. destruct H as [body [Hbody [= <-]]].
  destruct (render_rowsets_tds _ _ _ _ Hbody) as [Hth [tds [Htds Htd]]].
  assert (Hh : filter is_td_line head = [] /\
               exists ths, mapM (th_line repr) (header_columns self) = Ok ths /\
                           filter is_th_line head = ths).
  { unfold header_columns.
    destruct (htmltable.given (base.title self)),
             (htmltable.given (explanation self)),
             (headers self) as [[ | headerrow rest] | ];
      cbv zeta in Hhead;
      try (injection Hhead as <-; split; [reflexivity | exists []; auto]);
      apply bind_Ok in Hhead; destruct Hhead as [lines' [Hh [= <-]]];
      destruct (render_headers_ths _ _ _ Hh) as [Hno [ths [Hths Hyes]]];
      (split; [last_of is_td_line; rewrite Hno; reflexivity | ]);
      exists ths; (split; [exact Hths | ]);
      last_of is_th_line; rewrite Hyes; reflexivity. }
  destruct Hh as [Hhtd [ths [Hths Hhth]]]. split.
  - exists tds. split; [exact Htds | ].
    do 2 last_of is_td_line. rewrite Htd. last_of is_td_line.
    rewrite Hhtd. reflexivity.
  - exists ths. split; [exact Hths | ].
    do 2 last_of is_th_line. rewrite Hth. last_of is_th_line. exact Hhth.
Qed.
End CellLines.

Lemma mapM_Ok_length {A B : Type} (f : A -> result B) (l : list A) (ys : list B) :
  mapM f l = Ok ys -> List.length ys = List.length l.
Proof.
  revert ys. induction l as [ | x l IH]; intros ys; simpl.
  - intros [= <-]. reflexivity.
  - intros H. apply bind_Ok in H. destruct H as [y [_ H]].
    apply bind_Ok in H. destruct H as [ys' [Hys [= <-]]].
    simpl. rewrite (IH _ Hys). reflexivity.
Qed.

Lemma mapM_Ok_Forall {A B : Type} (f : A -> result B) (l : list A) :
  (exists ys, mapM f l = Ok ys) <-> Forall (fun x => exists y, f x = Ok y) l.
Proof.
  induction l as [ | x l IH]; simpl.
  - split; [constructor | exists []; reflexivity].
  - split.
    + intros [ys H]. apply bind_Ok in H. destruct H as [y [Hy H]].
      apply bind_Ok in H. destruct H as [ys' [Hys _]].
      constructor; [exists y; exact Hy | apply IH; exists ys'; exact Hys].
    + intros H. inversion H as [ | ? ? [y Hy] Hl]; subst.
      apply IH in Hl. destruct Hl as [ys Hys].
      exists (y :: ys). rewrite Hy, Hys. reflexivity.
Qed.

(** X7.  The [td] lines of a rendering are the renderings of the cells, one
    line per cell, in the order of the rowsets, of the rows in each rowset
    and of the cells in each row, each after six spaces; no other line of
    the rendering starts like them. *)
Theorem render_td_lines (repr : pyval -> string) (self : TableBase)
    (rowsets : list rowset) (lines : list string) :
  htmltable.render_lines repr self rowsets = Ok lines ->
  exists tds,
    mapM (htmltable._rendercell repr self) (all_cells rowsets) = Ok tds /\
    filter is_td_line lines = map (append "      ") tds /\
    List.length (filter is_td_line lines) = List.length (all_cells rowsets).
Proof.
  intros H.
  destruct (proj1 (render_lines_cells repr self rowsets lines H)) as [tds [Htds Htd]].
  exists tds. repeat split; try assumption.
  rewrite Htd, length_map. exact (mapM_Ok_length _ _ _ Htds).
Qed.

(** The theorem at the table of two rowsets of two rows of two cells. *)
Lemma render_td_lines_witness :
  htmltable.render_lines no_repr plain_table two_by_two = Ok two_by_two_lines /\
  List.length (filter is_td_line two_by_two_lines) = 8%nat.
Proof.
  split; [reflexivity | ].
  destruct (render_td_lines no_repr plain_table two_by_two two_by_two_lines eq_refl)
    as [tds [_ [_ H]]].
  exact H.
Defined.

Lemma colspanstring_none (st : StyleAttributes) :
  htmltable.colspanstring st = Ok "" ->
  exists span, StyleAttributes_getattr st "span" = Ok span /\ gt_int span 1 = false.
Proof.
  unfold htmltable.colspanstring. intros H.
  apply bind_Ok in H. destruct H as [span [Hspan H]].
  exists span. split; [exact Hspan | ].
  destruct (gt_int span 1); [ | reflexivity].
  apply bind_Ok in H. destruct H as [d [_ H]]. discriminate H.
Qed.

(** X12.  The [th] lines of a rendering are the lines of the header
    columns, one per column, header row after header row.  The line of a
    column whose title is a string shows the title as it is, without
    escaping, with a [colspan] attribute when the column's span is an
    integer above 1. *)
Theorem render_th_lines (repr : pyval -> string) (self : TableBase)
    (rowsets : list rowset) (lines : list string) :
  htmltable.render_lines repr self rowsets = Ok lines ->
  (exists ths,
     mapM (th_line repr) (header_columns self) = Ok ths /\
     filter is_th_line lines = ths /\
     List.length (filter is_th_line lines) = List.length (header_columns self)) /\
  (forall column t,
     In column (header_columns self) -> layout.title column = PStr t ->
     (htmltable.colspanstring (column_style column) = Ok "" ->
      th_line repr column = Ok ("      <th>" ++ t ++ "</th>")%string) /\
     (forall z, stored (column_style column) "span" = PInt z -> (1 < z)%Z ->
      th_line repr column
      = Ok ("      <th colspan=" ++ dq ++ string_of_Z z ++ dq ++ ">" ++ t
            ++ "</th>")%string)).
Proof.
  intros H.
  destruct (proj2 (render_lines_cells repr self rowsets lines H)) as [ths [Hths Hth]].
  split.
  - exists ths. repeat split; try assumption.
    rewrite Hth. exact (mapM_Ok_length _ _ _ Hths).
  - intros column t _ Ht. split.
    + intros Hcs. destruct (colspanstring_none _ Hcs) as [span [Hspan Hgt]].
      unfold th_line. simpl. rewrite Hspan. simpl. rewrite Hgt, Ht. reflexivity.
    + intros z Hz Hlt. unfold th_line. simpl. rewrite getattr_span, Hz. simpl.
      apply Z.ltb_lt in Hlt. rewrite Hlt, Ht. reflexivity.
Qed.

(** The theorem at a table with two header rows of two columns. *)
Lemma render_th_lines_witness :
  htmltable.render_lines no_repr titled_table two_by_two = Ok titled_lines /\
  filter is_th_line titled_lines
  = ["      <th>A & B</th>";
     ("      <th colspan=" ++ dq ++ "3" ++ dq ++ ">Y</th>")%string;
     "      <th>a</th>";
     "      <th>Y</th>"].
Proof.
  split; [reflexivity | ].
  destruct (render_th_lines no_repr titled_table two_by_two titled_lines eq_refl)
    as [[ths [Hths [Hth _]]] _].
  rewrite Hth. injection Hths as <-. reflexivity.
Defined.

(** ** When render raises *)


Lemma th_line_exn (repr : pyval -> string) (column : ColumnSpec) (e : exn) :
  th_line repr column = Err e -> e = TypeError.
Proof.
  unfold th_line. simpl. rewrite getattr_span. simpl.
  destruct (gt_int _ 1).
  - destruct (format_d _) as [d | e'] eqn:Hd; simpl; [discriminate | ].
    intros [= <-].
    destruct (if is_None _ then _ else _); simpl in Hd; try discriminate Hd;
      injection Hd as <-; reflexivity.
  - destruct (format_s repr (layout.title column)) as [t | e'] eqn:Ht; simpl;
      [discriminate | ].
    intros [= <-]. unfold format_s in Ht.
    destruct (layout.title column) as [ | | | | | [ | x [ | y elts]] | | ];
      try discriminate Ht; injection Ht as <-; reflexivity.
Qed.

Section Raises.
Variable repr : pyval -> string.

Lemma render_headercolumns_Err (headerrow : list ColumnSpec) :
  forall lines e,
    htmltable.render_headercolumns repr headerrow lines = Err e -> e = TypeError.
Proof.
  induction headerrow as [ | column rest IH]; intros lines e; simpl.
  - discriminate.
  - pose proof (th_line_exn repr column) as Hth. unfold th_line in Hth.
    simpl in Hth.
    destruct (StyleAttributes_getattr (column_style column) "span") as [span | e'];
      simpl in *.
    + destruct (if gt_int span 1 then _ else _) as [line | e']; simpl in *.
      * apply IH.
      * intros [= <-]. apply Hth. reflexivity.
    + intros [= <-]. apply Hth. reflexivity.
Qed.

Lemma render_headers_Err (headers : list RowSpec) :
  forall lines e,
    htmltable.render_headers repr headers lines = Err e -> e = TypeError.
Proof.
  induction headers as [ | headerrow rest IH]; intros lines e; simpl.
  - discriminate.
  - intros H. apply bind_Err in H. destruct H as [H | [lines' [_ H]]].
    + exact (render_headercolumns_Err _ _ _ H).
    + exact (IH _ _ H).
Qed.
End Raises.


(** X9.  A header column whose title is a tuple of a length other than 1,
    as [ColumnSpec] makes it from a tuple path when no title is given, and
    which has no colspan, has no [th] line: [render] raises [TypeError]
    for every table with such a column in its headers, whatever its
    rows. *)
Theorem render_tuple_title_raises (repr : pyval -> string) (self : TableBase)
    (rowsets : list rowset) (names : list string)
    (properties : list (string * pyval)) :
  In (ColumnSpec_init (Names names) PNone properties) (header_columns self) ->
  List.length names <> 1%nat ->
  htmltable.colspanstring (mkStyleAttributes properties) = Ok "" ->
  th_line repr (ColumnSpec_init (Names names) PNone properties) = Err TypeError /\
  htmltable.render repr self rowsets = Err TypeError.
Proof.
  intros Hin Hlen Hcs.
  assert (Hth : th_line repr (ColumnSpec_init (Names names) PNone properties)
                = Err TypeError).
  { destruct (colspanstring_none _ Hcs) as [span [Hspan Hgt]].
    unfold th_line. simpl. simpl in Hspan. rewrite Hspan. simpl. rewrite Hgt.
    destruct names as [ | x [ | y names]]; simpl; try reflexivity.
    exfalso. apply Hlen. reflexivity. }
  split; [exact Hth | ].
  unfold htmltable.render.
  destruct (htmltable.render_lines repr self rowsets) as [lines | e] eqn:Hlines.
  - exfalso.
    destruct (proj2 (render_lines_cells repr self rowsets lines Hlines))
      as [ths [Hths _]].
    assert (Hall : exists ths, mapM (th_line repr) (header_columns self) = Ok ths)
      by (exists ths; exact Hths).
    apply mapM_Ok_Forall in Hall. rewrite Forall_forall in Hall.
    destruct (Hall _ Hin) as [line Hline]. rewrite Hth in Hline. discriminate Hline.
  - simpl. f_equal.
    unfold htmltable.render_lines in Hlines.
    apply bind_Err in Hlines. destruct Hlines as [Hhead | [head [Hhead Hbody]]].
    + destruct (headers self) as [[ | headerrow rest] | ];
        cbv zeta in Hhead; try discriminate Hhead.
      apply bind_Err in Hhead. destruct Hhead as [Hh | [lines' [_ Hh]]];
        [ | discriminate Hh].
      exact (render_headers_Err repr _ _ _ Hh).
    + exfalso. unfold header_columns in Hin.
      destruct (headers self) as [[ | headerrow rest] | ];
        cbv zeta in Hhead; try (destruct Hin; fail).
      apply bind_Ok in Hhead. destruct Hhead as [lines' [Hh _]].
      destruct (render_headers_ths repr _ _ _ Hh) as [_ [ths [Hths _]]].
      assert (Hall : exists ths,
                 mapM (th_line repr) (flat_map columnspecs (headerrow :: rest))
                 = Ok ths)
        by (exists ths; exact Hths).
      apply mapM_Ok_Forall in Hall. rewrite Forall_forall in Hall.
      destruct (Hall _ Hin) as [line Hline]. rewrite Hth in Hline.
      discriminate Hline.
Qed.

(** The theorem at a table whose header is [ColumnSpec(('x', 'y'))]. *)
Lemma render_tuple_title_raises_witness :
  htmltable.render no_repr tuple_header_table two_by_two = Err TypeError.
Proof.
  refine (proj2 (render_tuple_title_raises no_repr tuple_header_table two_by_two
                   ["x"; "y"] [] _ _ eq_refl)).
  - left; reflexivity.
  - discriminate.
Defined.

(** ** TableFactory.py and the package *)

Lemma bind_ret {A : Type} (r : result A) : (x <- r ;; Ok x) = r.
Proof. destruct r; reflexivity. Qed.

(** X16.  For ColumnSpecs made from a single name, [RowSpec.__call__] of
    TableFactory.py and of layout.py return the same row, or raise the
    same error, on every record, and the ColumnSpecs have the same
    titles. *)
Theorem RowSpec_call_agrees (specs : list column_args) (R : pyval) :
  TableFactory_py.RowSpec_call (TableFactory_py.mkRowSpec (map old_column specs)) R
  = RowSpec_call (mkRowSpec (map new_column specs)) R /\
  map TableFactory_py.title (map old_column specs)
  = map layout.title (map new_column specs).
Proof.
  split.
  - unfold TableFactory_py.RowSpec_call, RowSpec_call. simpl.
    assert (H : forall output,
               TableFactory_py.call_loop (map old_column specs) R output
               = call_loop (map new_column specs) R output);
      [ | rewrite H; reflexivity].
    induction specs as [ | [[attribute title] properties] rest IH];
      intros output; simpl; [reflexivity | ].
    fold (lookup R attribute). rewrite bind_ret.
    destruct (lookup R attribute) as [v | e]; simpl; [apply IH | reflexivity].
  - induction specs as [ | [[attribute title] properties] rest IH]; simpl;
      [reflexivity | ].
    rewrite IH. reflexivity.
Qed.


Section OldLines.
Variable repr : pyval -> string.
Variable self : TableFactory_py.TableBase.

Lemma old_render_cells_trs (subrow : list Cell) :
  forall lines out,
    TableFactory_py.render_cells repr self subrow lines = Ok out ->
    filter is_tr_line out = filter is_tr_line lines.
Proof.
  induction subrow as [ | cell rest IH]; intros lines out; simpl.
  - intros [= <-]. reflexivity.
  - intros H. apply bind_Ok in H. destruct H as [td [_ H]].
    rewrite (IH _ _ H). last_line. reflexivity.
Qed.

Lemma old_render_subrows_trs (i : nat) (rowset : list TableRow) :
  forall lines out,
    TableFactory_py.render_subrows repr self i rowset lines = Ok out ->
    filter is_tr_line out
    = filter is_tr_line lines
      ++ repeat ("    <tr class=" ++ dq ++ "tr_" ++ stripe i ++ dq ++ ">")%string
                (List.length rowset).
Proof.
  induction rowset as [ | subrow rest IH]; intros lines out;
    cbn [TableFactory_py.render_subrows List.length repeat].
  - intros [= <-]. symmetry. apply app_nil_r.
  - intros H. apply bind_Ok in H. destruct H as [lines' [Hcells H]].
    rewrite (IH _ _ H). last_line.
    rewrite (old_render_cells_trs _ _ _ Hcells).
    pose proof (zebra_stripe i) as Hz.
    change htmltable.cssdefs_zebra with ["odd"; "even"] in Hz.
    rewrite filter_snoc, Hz.
    replace (is_tr_line _) with true by (unfold stripe; destruct (Nat.even i); reflexivity).
    rewrite <- app_assoc. reflexivity.
Qed.

Lemma old_render_rowsets_trs (rowsets : list rowset) :
  forall i lines out,
    TableFactory_py.render_rowsets repr self i rowsets lines = Ok out ->
    filter is_tr_line out = filter is_tr_line lines ++ old_tr_lines i rowsets.
Proof.
  induction rowsets as [ | rowset rest IH]; intros i lines out; simpl.
  - intros [= <-]. symmetry. apply app_nil_r.
  - intros H. apply bind_Ok in H. destruct H as [lines' [Hsub H]].
    rewrite (IH _ _ _ H), (old_render_subrows_trs _ _ _ _ Hsub), <- app_assoc.
    reflexivity.
Qed.

Lemma old_render_headercolumns_trs (headerrow : list TableFactory_py.ColumnSpec) :
  forall lines out,
    TableFactory_py.render_headercolumns repr headerrow lines = Ok out ->
    filter is_tr_line out = filter is_tr_line lines.
Proof.
  induction headerrow as [ | column rest IH]; intros lines out; simpl.
  - intros [= <-]. reflexivity.
  - intros H. apply bind_Ok in H. destruct H as [span [_ H]].
    apply bind_Ok in H. destruct H as [line [Hline H]].
    rewrite (IH _ _ H).
    destruct (gt_int span 1);
      apply bind_Ok in Hline; destruct Hline as [d [_ [= <-]]];
      last_line; reflexivity.
Qed.

Lemma old_render_headers_trs (headers : list TableFactory_py.RowSpec) :
  forall lines out,
    TableFactory_py.render_headers repr headers lines = Ok out ->
    filter is_tr_line out = filter is_tr_line lines.
Proof.
  induction headers as [ | headerrow rest IH]; intros lines out; simpl.
  - intros [= <-]. reflexivity.
  - intros H. apply bind_Ok in H. destruct H as [lines' [Hcols H]].
    rewrite (IH _ _ H). last_line.
    rewrite (old_render_headercolumns_trs _ _ _ Hcols). last_line. reflexivity.
Qed.

Lemma old_render_lines_trs (rowsets : list rowset) (lines : list string) :
  TableFactory_py.render_lines repr self rowsets = Ok lines ->
  filter is_tr_line lines = old_tr_lines 0 rowsets.
Proof.
  unfold TableFactory_py.render_lines. intros H.
  apply bind_Ok in H. destruct H as [head [Hhead H]].
  apply bind_Ok in H. destruct H as [body [Hbody [= <-]]].
  do 2 last_line.
  rewrite (old_render_rowsets_trs _ _ _ _ Hbody). last_line.
  assert (Hno : filter is_tr_line head = []); [ | rewrite Hno; reflexivity].
  destruct (htmltable.given (TableFactory_py.table_title self)),
           (htmltable.given (TableFactory_py.explanation self)),
           (TableFactory_py.headers self) as [[ | headerrow rest] | ];
    cbv zeta in Hhead;
    try (injection Hhead as <-; reflexivity);
    apply bind_Ok in Hhead; destruct Hhead as [lines' [Hh [= <-]]];
    last_line; rewrite (old_render_headers_trs _ _ _ Hh); reflexivity.
Qed.
End OldLines.

(** X17.  In the markup of TableFactory.py every row of the rowset at
    index [i] opens with the class [tr_odd] when [i] is even and [tr_even]
    when it is odd, and with no other class: the rows after the first of a
    rowset are not marked. *)
Theorem old_render_stripes (repr : pyval -> string)
    (self : TableFactory_py.TableBase) (rowsets : list rowset)
    (lines : list string) :
  TableFactory_py.render_lines repr self rowsets = Ok lines ->
  TableFactory_py.render repr self rowsets = Ok (String.concat newline lines) /\
  filter is_tr_line lines = old_tr_lines 0 rowsets /\
  List.length (filter is_tr_line lines)
  = list_sum (map (fun rowset => List.length (subrows rowset)) rowsets).
Proof.
  intros H. pose proof (old_render_lines_trs repr self rowsets lines H) as Htrs.
  repeat apply conj.
  - unfold TableFactory_py.render. rewrite H. reflexivity.
  - exact Htrs.
  - rewrite Htrs. clear H Htrs. generalize 0%nat.
    induction rowsets as [ | rowset rest IH]; intros i; simpl.
    + reflexivity.
    + rewrite length_app, repeat_length, IH. reflexivity.
Qed.

(** The theorem at a single row followed by a rowset of three rows. *)
Lemma old_render_stripes_witness :
  TableFactory_py.render_lines no_repr old_plain_table one_and_three
  = Ok old_one_and_three_lines /\
  filter is_tr_line old_one_and_three_lines
  = [("    <tr class=" ++ dq ++ "tr_odd" ++ dq ++ ">")%string;
     ("    <tr class=" ++ dq ++ "tr_even" ++ dq ++ ">")%string;
     ("    <tr class=" ++ dq ++ "tr_even" ++ dq ++ ">")%string;
     ("    <tr class=" ++ dq ++ "tr_even" ++ dq ++ ">")%string].
Proof.
  split; [reflexivity | ].
  exact (proj1 (proj2 (old_render_stripes no_repr old_plain_table one_and_three
                         old_one_and_three_lines eq_refl))).
Defined.

(** ** spreadsheettable.py: the styles *)

Section Dict.
Variables K V : Type.
Variable eqb : K -> K -> bool.
Hypothesis eqb_eq : forall a b, eqb a b = true <-> a = b.

Lemma find_set_same (d : list (K * V)) (k : K) (v : V) :
  spreadsheettable.find eqb (spreadsheettable.set eqb d k v) k = Some v.
Proof.
  assert (Hk : eqb k k = true) by (apply eqb_eq; reflexivity).
  induction d as [ | [k' w] rest IH]; simpl.
  - rewrite Hk. reflexivity.
  - destruct (eqb k' k) eqn:Heq; simpl; rewrite Heq; [reflexivity | exact IH].
Qed.

Lemma find_set_other (d : list (K * V)) (k k' : K) (v : V) :
  k <> k' ->
  spreadsheettable.find eqb (spreadsheettable.set eqb d k v) k'
  = spreadsheettable.find eqb d k'.
Proof.
  intros Hne.
  assert (Hk : eqb k k' = false).
  { destruct (eqb k k') eqn:Heq; [ | reflexivity].
    apply eqb_eq in Heq. contradiction. }
  induction d as [ | [k0 w] rest IH]; simpl.
  - rewrite Hk. reflexivity.
  - destruct (eqb k0 k) eqn:Heq; simpl.
    + apply eqb_eq in Heq. subst k0. rewrite Hk. reflexivity.
    + rewrite IH. reflexivity.
Qed.
End Dict.

Lemma typekey_eqb_eq (a b : spreadsheettable.typekey) :
  spreadsheettable.typekey_eqb a b = true <-> a = b.
Proof.
  destruct a as [ | t | | ], b as [ | u | | ]; simpl;
    try (split; [reflexivity | reflexivity]);
    try (split; intros H; discriminate H).
  rewrite pytype_eqb_eq. split; [intros ->; reflexivity | intros [= ->]; reflexivity].
Qed.

Lemma attrskey_eqb_eq (a b : spreadsheettable.attrskey) :
  spreadsheettable.attrskey_eqb a b = true <-> a = b.
Proof.
  destruct a as [x | ], b as [y | ]; simpl;
    try (split; intros H; discriminate H); [ | split; reflexivity].
  destruct (list_eq_dec string_dec x y) as [-> | Hne].
  - split; reflexivity.
  - split; [discriminate | intros [= H]; contradiction].
Qed.

(** The sorted tuple of the attributes of a cell. *)
Lemma getstyle_unfold (cell : Cell) (m : spreadsheettable.styletypemap) :
  spreadsheettable._getstyle cell m
  = (keyed <-
       (match spreadsheettable.find spreadsheettable.typekey_eqb m
                (spreadsheettable.Type_ (type_of (value cell))) with
        | Some cs => Ok (spreadsheettable.Type_ (type_of (value cell)), cs)
        | None =>
            match spreadsheettable.find spreadsheettable.typekey_eqb m
                    spreadsheettable.NoType with
            | Some cs => Ok (spreadsheettable.NoType, cs)
            | None => Err KeyError
            end
        end) ;;
     let '(key, cs) := keyed in
     let bold := truthy (stored (style cell) "bold") in
     let money := truthy (stored (style cell) "money") in
     let attrs := (if bold then ["bold"] else []) ++ (if money then ["money"] else []) in
     match spreadsheettable.find spreadsheettable.attrskey_eqb cs (Some attrs) with
     | Some s => Ok (s, m)
     | None =>
         match spreadsheettable.find spreadsheettable.attrskey_eqb cs None with
         | None => Err KeyError
         | Some d =>
             let s :=
               spreadsheettable.mkXFStyle
                 (bold || spreadsheettable.font_bold d)
                 (if money then spreadsheettable.HORZ_RIGHT
                  else spreadsheettable.alignment_horz d)
                 (if money then "0.00" else spreadsheettable.num_format_str d) in
             Ok (s, spreadsheettable.set spreadsheettable.typekey_eqb m key
                      (spreadsheettable.set spreadsheettable.attrskey_eqb cs
                                            (Some attrs) s))
         end
     end).
Proof.
  unfold spreadsheettable._getstyle.
  rewrite (getattr_other (style cell) "bold"),
          (getattr_other (style cell) "money") by discriminate.
  match goal with |- bind ?k _ = _ => destruct k as [[key cs] | e] end;
    [ | reflexivity].
  cbn [bind].
  destruct (truthy (stored (style cell) "bold")),
           (truthy (stored (style cell) "money")); cbn [app orb];
    destruct (spreadsheettable.find spreadsheettable.attrskey_eqb cs (Some _));
    try reflexivity;
    destruct (spreadsheettable.find spreadsheettable.attrskey_eqb cs None)
      as [[b h n] | ]; reflexivity.
Qed.



Lemma has_attrs (bold money : bool) :
  has "bold" ((if bold then ["bold"] else []) ++ (if money then ["money"] else []))
  = bold /\
  has "money" ((if bold then ["bold"] else []) ++ (if money then ["money"] else []))
  = money.
Proof. destruct bold, money; split; reflexivity. Qed.

(** X19.  The [styletypemap] of the class is standard, and from a standard
    [styletypemap] [_getstyle] never raises and leaves a standard
    [styletypemap]; the style it returns is the default style, made bold
    exactly when the cell's [bold] option is true, and right-aligned with
    the format [0.00] exactly when its [money] option is true, whatever
    cells were styled before. *)
Theorem getstyle_standard :
  standard spreadsheettable.styletypemap_init /\
  forall cell m,
    standard m ->
    exists s m',
      spreadsheettable._getstyle cell m = Ok (s, m') /\
      standard m' /\
      styled_from (spreadsheettable.easyxf "General") s
                  (truthy (stored (style cell) "bold"))
                  (truthy (stored (style cell) "money")).
Proof.
  split.
  - exists [(None, spreadsheettable.easyxf "General")].
    split; [reflexivity | split; [intros t; reflexivity | split; [reflexivity | ]]].
    intros attrs s H. discriminate H.
  - intros cell m [cs [Hnone [Htype [Hdefault Hcached]]]].
    rewrite getstyle_unfold. rewrite Htype, Hnone. cbv beta iota zeta delta [bind].
    set (bold := truthy (stored (style cell) "bold")).
    set (money := truthy (stored (style cell) "money")).
    set (tuple := (if bold then ["bold"] else []) ++ (if money then ["money"] else [])).
    destruct (has_attrs bold money) as [Hb Hm]. fold tuple in Hb, Hm.
    destruct (spreadsheettable.find spreadsheettable.attrskey_eqb cs (Some tuple))
      as [s0 | ] eqn:Hhit.
    + exists s0, m. split; [reflexivity | split].
      * exists cs. auto.
      * pose proof (Hcached _ _ Hhit) as H. rewrite Hb, Hm in H. exact H.
    + rewrite Hdefault. eexists. eexists. split; [reflexivity | split].
      * eexists. split; [apply (find_set_same _ _ _ typekey_eqb_eq) | ].
        split; [ | split].
        -- intros t. rewrite (find_set_other _ _ _ typekey_eqb_eq) by discriminate.
           apply Htype.
        -- rewrite (find_set_other _ _ _ attrskey_eqb_eq) by discriminate.
           exact Hdefault.
        -- intros attrs' s' H.
           destruct (list_eq_dec string_dec tuple attrs') as [<- | Hne].
           ++ rewrite (find_set_same _ _ _ attrskey_eqb_eq) in H. injection H as <-.
              rewrite Hb, Hm. repeat split.
           ++ rewrite (find_set_other _ _ _ attrskey_eqb_eq) in H by congruence.
              exact (Hcached _ _ H).
      * repeat split.
Qed.

(** ** spreadsheettable.py: the calls on the worksheet *)










(** ** The reprs *)

(** X21.  The repr of a Cell shows its value and the repr of a ColumnSpec
    its title, except that a tuple is taken as the arguments of the
    format: a tuple of one element shows as the element, and a tuple of
    another length raises [TypeError], as for the ColumnSpec of a tuple
    path of two or more names that was given no title. *)
Theorem repr_of_tuple (repr : pyval -> string) :
  (forall v st,
     type_of v <> tuple_type ->
     Cell_repr repr (mkCell v st) = Ok ("<Cell(" ++ unicode repr v ++ ")>")%string) /\
  (forall x st,
     Cell_repr repr (mkCell (PTuple [x]) st)
     = Ok ("<Cell(" ++ unicode repr x ++ ")>")%string) /\
  (forall elts st,
     List.length elts <> 1%nat ->
     Cell_repr repr (mkCell (PTuple elts) st) = Err TypeError) /\
  (forall name title properties,
     truthy title = false ->
     ColumnSpec_repr repr (ColumnSpec_init (Name name) title properties)
     = Ok ("<ColumnSpec(" ++ name ++ ")>")%string) /\
  (forall names title properties,
     truthy title = false -> List.length names <> 1%nat ->
     ColumnSpec_repr repr (ColumnSpec_init (Names names) title properties)
     = Err TypeError).
Proof.
  repeat apply conj.
  - intros v st Hv. unfold Cell_repr. simpl.
    destruct v; try reflexivity. exfalso. apply Hv. reflexivity.
  - reflexivity.
  - intros [ | x [ | y elts]] st Hlen; try reflexivity.
    exfalso. apply Hlen. reflexivity.
  - intros name title properties Ht. unfold ColumnSpec_repr. simpl.
    rewrite Ht. reflexivity.
  - intros [ | x [ | y names]] title properties Ht Hlen;
      unfold ColumnSpec_repr; simpl; rewrite Ht; try reflexivity.
    exfalso. apply Hlen. reflexivity.
Qed.
